(** * The content-creation wizard view of django CMS (cms/wizards/views.py)

    A shallow embedding of [WizardViewMixin] and [WizardCreateView]:
    Python dictionaries are finite maps, attribute reads and writes on
    [self] are explicit state passing over a record, and exceptions are
    the [Raise] branch of a result type. *)

From stdpp Require Import base strings gmap fin_maps list.
From Stdlib Require Import ZArith Ascii.

Local Open Scope string_scope.
Local Open Scope Z_scope.

(** ** Python values, exceptions and results *)

Inductive exn :=
| AttributeError
| KeyError
| TypeError
| IndexError
| ValueError
| OverflowError
| RecursionError
| DatabaseError.

Inductive result (A : Type) :=
| Ok (a : A)
| Raise (e : exn).

Arguments Ok {A} a.
Arguments Raise {A} e.

#[global] Instance result_ret : MRet result := @Ok.

#[global] Instance result_bind : MBind result :=
  λ A B f r, match r with Ok a => f a | Raise e => Raise e end.

(** The values that travel through request parameters, cleaned data and
    form keyword arguments. *)
Inductive pyval :=
| VNone
| VStr (s : string)
| VInt (n : Z)
| VPage (pk : Z)
| VUser (name : string)
| VObj (id : Z).

#[global] Instance pyval_eq_dec : EqDecision pyval.
Proof. solve_decision. Defined.

#[global] Instance exn_eq_dec : EqDecision exn.
Proof. solve_decision. Defined.

Abbreviation dict := (gmap string pyval).

(** [d.get(k)] and [d.get(k, None)]. *)
Definition dict_get (d : dict) (k : string) : pyval := default VNone (d !! k).

(** Truth value of a Python object, as tested by [if] and [or]. *)
Definition truthy (v : pyval) : bool :=
  match v with
  | VNone => false
  | VStr s => negb (String.eqb s "")
  | VInt n => negb (n =? 0)
  | VPage _ | VUser _ | VObj _ => true
  end.

(** [a or b] on values. *)
Definition or_val (a b : pyval) : pyval := if truthy a then a else b.

(** A step argument is [None] or a string; [step or other]. *)
Definition step_truthy (step : option string) : bool :=
  match step with
  | None => false
  | Some s => negb (String.eqb s "")
  end.

Definition or_step (step other : option string) : option string :=
  if step_truthy step then step else other.

(** [if data:] for an optional mapping: [None] and the empty mapping are
    false. *)
Definition data_truthy (data : option dict) : bool :=
  match data with
  | None => false
  | Some d => negb (bool_decide (d = ∅))
  end.

(** ** Form classes *)

Inductive form_class :=
| Form
| WizardStep1Form
| WizardStep2BaseForm
| EntryForm (name : string)
| Step2Form (mixin_cls entry_form_class : form_class).

#[global] Instance form_class_eq_dec : EqDecision form_class.
Proof. solve_decision. Defined.

(** Modelled from the spec: [step2_form_factory] lives in cms/wizards/forms.py,
    which is not among the sources. The Step Form Factory, "given a base mixin
    and an entry-specific form class, produces a concrete hybrid form type for
    step two. Pure function, no state." *)
Definition step2_form_factory (mixin_cls entry_form_class : form_class) : form_class :=
  Step2Form mixin_cls entry_form_class.

(** ** Entry descriptors *)

Module Wizard.

Record t := {
  id : string;
  form : form_class;
  template_name : string;
  get_success_url : pyval → pyval → string;
}.

End Wizard.

(** Values of a template context: plain values or an entry descriptor. *)
Inductive ctxval :=
| CtxVal (v : pyval)
| CtxEntry (e : Wizard.t).

(** ** Requests, form instances, responses, the view object *)

Record Request := {
  user : pyval;
  GET : dict;
}.

(** A form instance: the class it was built from and the keyword
    arguments its constructor received. *)
Record BoundForm := {
  form_cls : form_class;
  form_data : option dict;
  form_files : option dict;
  form_prefix : string;
  form_initial : dict;
  form_kwargs : dict;
}.

Record Response := {
  response_template : string;
  response_context : gmap string ctxval;
}.


(** The session storage of the engine, as far as the view depends on it:
    the step the wizard is at and, per step, the submitted data and files
    stored so far. *)
Record Storage := {
  current_step : option string;
  step_data : gmap string dict;
  step_files : gmap string dict;
}.

(** The attributes of [self] the view code reads or writes. [page_pk] is
    only ever assigned in [get_form]; [None] is the attribute not being
    set. [storage] is [None] until the engine's [dispatch] has created
    [self.storage] and, with it, [self.steps]. *)
Record View := {
  language_code : pyval;
  page_pk : option pyval;
  form_list : gmap string form_class;
  initial_dict : gmap string dict;
  request : Request;
  storage : option Storage;
}.

Definition set_language_code (x : pyval) (self : View) : View :=
  {| language_code := x; page_pk := page_pk self; form_list := form_list self;
     initial_dict := initial_dict self; request := request self;
     storage := storage self |}.

Definition set_page_pk (x : pyval) (self : View) : View :=
  {| language_code := language_code self; page_pk := Some x;
     form_list := form_list self; initial_dict := initial_dict self;
     request := request self; storage := storage self |}.

Definition set_form_list (x : gmap string form_class) (self : View) : View :=
  {| language_code := language_code self; page_pk := page_pk self;
     form_list := x; initial_dict := initial_dict self;
     request := request self; storage := storage self |}.

Definition set_initial_dict (x : gmap string dict) (self : View) : View :=
  {| language_code := language_code self; page_pk := page_pk self;
     form_list := form_list self; initial_dict := x;
     request := request self; storage := storage self |}.

(** ** State and exceptions *)

(** A method that may assign attributes of the state [S] and may raise.
    The state is returned in both cases: an assignment made before a
    [raise] stays made. *)
Definition M (S A : Type) : Type := S → result A * S.

#[global] Instance M_ret {S} : MRet (M S) := λ A a s, (Ok a, s).

#[global] Instance M_bind {S} : MBind (M S) :=
  λ A B f m s,
    match m s with
    | (Ok a, s') => f a s'
    | (Raise e, s') => (Raise e, s')
    end.

Definition raise {S A} (e : exn) : M S A := λ s, (Raise e, s).

Definition lift {S A} (r : result A) : M S A := λ s, (r, s).

Definition gets {S A} (f : S → A) : M S A := λ s, (Ok (f s), s).

Definition modify {S} (f : S → S) : M S unit := λ s, (Ok tt, f s).

(** [transaction.atomic]: the block's writes are committed when it
    returns and discarded when it raises; the exception is re-raised. *)
Definition atomic {DB A} (block : M DB A) : M DB A :=
  λ db,
    match block db with
    | (Ok a, db') => (Ok a, db')
    | (Raise e, _) => (Raise e, db)
    end.


(** ** Collaborators

    What the view imports and inherits but does not define: the entry
    registry, the page manager of the persistence layer, the language
    detection of the web framework, the validation and the [save] method
    of form instances, and the session engine's [get_context_data] and
    [dispatch]. [form_clean] is the cleaned mapping of a form whose
    validation finds no error. The engine reaches the overriding methods
    through [self]; [done] is the one that touches the persistence layer,
    so [super_dispatch] receives it explicitly. *)
Class Collaborators := {
  DB : Type;
  wizard_pool_entries : gmap string Wizard.t;
  Page_objects_filter_first : pyval → result pyval;
  get_language_from_request : Request → string;
  form_clean : BoundForm → option dict;
  form_save : BoundForm → M DB pyval;
  super_get_context_data : View → gmap string ctxval → gmap string ctxval;
  super_dispatch :
    View → Request → (View → list BoundForm → M DB Response) → M DB Response;
}.

(** [form.is_bound], [form.is_valid()] and [form.cleaned_data]. *)
Definition form_is_bound (form : BoundForm) : bool :=
  bool_decide (is_Some (form_data form)) || bool_decide (is_Some (form_files form)).

Definition form_is_valid `{C : Collaborators} (form : BoundForm) : bool :=
  form_is_bound form && bool_decide (is_Some (form_clean form)).

Definition form_cleaned_data `{C : Collaborators} (form : BoundForm) : dict :=
  default ∅ (form_clean form).

(** ** The session engine's own methods, which the view extends *)

(** [self.steps.first]: the first key of [form_list], which for this view
    is ['0'] and stays so, since the view only ever assigns slots. *)
Definition steps_first : string := "0".

(** [self.steps.current], that is [storage.current_step or steps.first];
    [None] when [self.steps] does not exist yet. *)
Definition steps_current (self : View) : option string :=
  match storage self with
  | None => None
  | Some st =>
      match current_step st with
      | Some s => if String.eqb s "" then Some steps_first else Some s
      | None => Some steps_first
      end
  end.

Definition SessionWizardView_get_form_kwargs (self : View) (step : option string) : dict := ∅.

Definition SessionWizardView_get_form_initial (self : View) (step : option string) : dict :=
  match step with
  | Some s => default ∅ (initial_dict self !! s)
  | None => ∅
  end.

(** ** WizardViewMixin *)

Definition WizardViewMixin_get_form_kwargs (self : View) : dict :=
  let kwargs := SessionWizardView_get_form_kwargs self None in
  <["wizard_language" := language_code self]> kwargs.

(** ** WizardCreateView *)

Definition template_name : string := "cms/wizards/start.html".

Definition static_form_list : gmap string form_class :=
  <["0" := WizardStep1Form]> (<["1" := Form]> ∅).

Definition get_current_step (self : View) : option string := steps_current self.

Definition is_first_step (self : View) (step : option string) : bool :=
  let step := or_step step (get_current_step self) in
  bool_decide (step = Some "0").

Definition is_second_step (self : View) (step : option string) : bool :=
  let step := or_step step (get_current_step self) in
  bool_decide (step = Some "1").

Definition get_step_2_base_form (self : View) : form_class := WizardStep2BaseForm.

Definition get_form_initial (step : option string) : M View dict :=
  λ self,
    let initial := SessionWizardView_get_form_initial self step in
    if is_first_step self step then
      let initial' := <["page" := dict_get (GET (request self)) "page"]> initial in
      (* [initial] is the very mapping held in [initial_dict] when the step
         has one there, so the assignment shows through that attribute. *)
      match step with
      | Some s =>
          if bool_decide (is_Some (initial_dict self !! s)) then
            (Ok initial', set_initial_dict (<[s := initial']> (initial_dict self)) self)
          else (Ok initial', self)
      | None => (Ok initial', self)
      end
    else (Ok initial, self).

Definition page_key (step : string) : string := step +:+ "-page".

(** Modelled from the spec: [wizard_pool.get_entry] lives in
    cms/wizards/wizard_pool.py, which is not among the sources. The Entry
    Registry "maps an opaque entry identifier to a descriptor bundle";
    [get_entry(identifier) -> EntryDescriptor], "fails/raises if identifier
    unknown". *)
Definition wizard_pool_get_entry `{C : Collaborators} (entry : pyval) : result Wizard.t :=
  match entry with
  | VStr id =>
      match wizard_pool_entries !! id with
      | Some e => Ok e
      | None => Raise KeyError
      end
  | _ => Raise KeyError
  end.

(** The methods call each other through [self]: [get_selected_entry] and
    [get_origin_page] ask the engine's [get_cleaned_data_for_step], which
    validates the stored submission of the step again by calling the
    view's own [get_form]. Inside [Self] that one call through [self] is
    the variable [get_cleaned_data_for_step]; the knot is tied below. *)
Module Self.

Section Methods.

Context `{C : Collaborators}.

Variable get_cleaned_data_for_step : string → M View (option dict).

Definition get_selected_entry : M View Wizard.t :=
  data ← get_cleaned_data_for_step "0";
  match data with
  | None => raise TypeError
  | Some data =>
      match data !! "entry" with
      | None => raise KeyError
      | Some entry => lift (wizard_pool_get_entry entry)
      end
  end.

Definition get_origin_page : M View pyval :=
  data ← get_cleaned_data_for_step "0";
  match data with
  | None => raise AttributeError
  | Some data => mret (dict_get data "page")
  end.

Definition get_success_url (instance : pyval) : M View string :=
  entry ← get_selected_entry;
  self ← gets id;
  let success_url := Wizard.get_success_url entry instance (language_code self) in
  mret success_url.

Definition get_context_data (kwargs : gmap string ctxval) : M View (gmap string ctxval) :=
  self ← gets id;
  let context := super_get_context_data self kwargs in
  if is_second_step self None then
    entry ← get_selected_entry;
    mret (<["wizard_entry" := CtxEntry entry]> context)
  else mret context.

Definition get_form_kwargs (step : option string) : M View dict :=
  self ← gets id;
  let kwargs := WizardViewMixin_get_form_kwargs self in
  let kwargs := <["wizard_user" := user (request self)]> kwargs in
  if is_second_step self step then
    page ← get_origin_page;
    mret (<["wizard_page" := page]> kwargs)
  else
    match page_pk self with
    | None => raise AttributeError
    | Some pk =>
        let page_pk := or_val pk (dict_get (GET (request self)) "page") in
        page ← lift (Page_objects_filter_first page_pk);
        mret (<["wizard_page" := page]> kwargs)
    end.

Definition get_step_2_form (step : option string) (data files : option dict) : M View form_class :=
  entry ← get_selected_entry;
  self ← gets id;
  let entry_form_class := Wizard.form entry in
  let step_2_base_form := get_step_2_base_form self in
  let form := step2_form_factory step_2_base_form entry_form_class in
  mret form.

Definition get_template_names : M View string :=
  self ← gets id;
  if is_first_step self None then mret template_name
  else
    entry ← get_selected_entry;
    mret (Wizard.template_name entry).

(** The engine's [get_form], which the view's [get_form] ends with: the
    class registered for the step is instantiated with the keyword
    arguments and the initial data that the view's own [get_form_kwargs]
    and [get_form_initial] compute. *)
Definition SessionWizardView_get_form (step : string) (data files : option dict) : M View BoundForm :=
  self ← gets id;
  match form_list self !! step with
  | None => raise KeyError
  | Some form_class =>
      kwargs ← get_form_kwargs (Some step);
      initial ← get_form_initial (Some step);
      mret {| form_cls := form_class; form_data := data; form_files := files;
              form_prefix := step; form_initial := initial; form_kwargs := kwargs |}
  end.

Definition get_form (step : option string) (data files : option dict) : M View BoundForm :=
  step ← match step with
         | None =>
             self ← gets id;
             match steps_current self with
             | Some s => mret s
             | None => raise AttributeError
             end
         | Some s => mret s
         end;
  _ ← (if data_truthy data then
         modify (set_page_pk (dict_get (default ∅ data) (page_key step)))
       else modify (set_page_pk VNone));
  self ← gets id;
  _ ← (if is_second_step self (Some step) then
         form ← get_step_2_form (Some step) data files;
         modify (λ self, set_form_list (<[step := form]> (form_list self)) self)
       else mret tt);
  SessionWizardView_get_form step data files.

(** The engine's [get_cleaned_data_for_step]: for a registered step, the
    stored submission is run through [self.get_form] again, and the
    cleaned data of the resulting form is returned when it is valid;
    [None] otherwise. *)
Definition SessionWizardView_get_cleaned_data_for_step (step : string) : M View (option dict) :=
  self ← gets id;
  if bool_decide (is_Some (form_list self !! step)) then
    match storage self with
    | None => raise AttributeError
    | Some st =>
        form_obj ← get_form (Some step) (step_data st !! step) (step_files st !! step);
        if form_is_valid form_obj then mret (Some (form_cleaned_data form_obj))
        else mret None
    end
  else mret None.

End Methods.

End Self.

(** Tying the knot. Validating a step again needs cleaned data only when
    that step is the second one, and then the cleaned data of step '0',
    whose own validation needs none: two rounds through [self] reach
    every call, and [get_cleaned_data_for_step_depth] below shows that
    further rounds change nothing. *)
Fixpoint get_cleaned_data_for_step_upto `{C : Collaborators} (depth : nat) (step : string) : M View (option dict) :=
  match depth with
  | O => raise RecursionError
  | S depth =>
      Self.SessionWizardView_get_cleaned_data_for_step
        (get_cleaned_data_for_step_upto depth) step
  end.

Definition get_cleaned_data_for_step `{C : Collaborators} : string → M View (option dict) :=
  get_cleaned_data_for_step_upto 2.

Section WithCollaborators.

Context `{C : Collaborators}.

Definition get_selected_entry : M View Wizard.t :=
  Self.get_selected_entry get_cleaned_data_for_step.

Definition get_origin_page : M View pyval :=
  Self.get_origin_page get_cleaned_data_for_step.

Definition get_success_url (instance : pyval) : M View string :=
  Self.get_success_url get_cleaned_data_for_step instance.

Definition get_context_data (kwargs : gmap string ctxval) : M View (gmap string ctxval) :=
  Self.get_context_data get_cleaned_data_for_step kwargs.

Definition get_form_kwargs (step : option string) : M View dict :=
  Self.get_form_kwargs get_cleaned_data_for_step step.

Definition get_step_2_form (step : option string) (data files : option dict) : M View form_class :=
  Self.get_step_2_form get_cleaned_data_for_step step data files.

Definition get_template_names : M View string :=
  Self.get_template_names get_cleaned_data_for_step.

Definition SessionWizardView_get_form (step : string) (data files : option dict) : M View BoundForm :=
  Self.SessionWizardView_get_form get_cleaned_data_for_step step data files.

Definition get_form (step : option string) (data files : option dict) : M View BoundForm :=
  Self.get_form get_cleaned_data_for_step step data files.

(** [done] and [dispatch] act on the persistence layer; the assignments
    that [get_success_url] makes on [self] on the way are not seen by
    either once the response is built. *)
Definition done (self : View) (forms : list BoundForm) : M DB Response :=
  match forms !! 1%nat with
  | None => raise IndexError
  | Some form_two =>
      instance ← form_save form_two;
      url ← lift (get_success_url instance self).1;
      let context : gmap string ctxval := {["url" := CtxVal (VStr url)]} in
      mret {| response_template := "cms/wizards/done.html"; response_context := context |}
  end.

Definition dispatch (self : View) (request : Request) : M DB Response :=
  atomic (
    let self := set_language_code (VStr (get_language_from_request request)) self in
    super_dispatch self request done).

End WithCollaborators.

(** ** Vocabulary of the statements *)

(** The value [get_form] assigns to [self.page_pk]: the submitted
    ["<step>-page"] field when there is submitted data, [None] otherwise. *)
Definition submitted_page_pk (step : string) (data : option dict) : pyval :=
  if data_truthy data then dict_get (default ∅ data) (page_key step) else VNone.

(** The step a call of [get_form] is for: the argument, or the current
    step when the argument is left out. *)
Definition target_step (self : View) (step : option string) : option string :=
  match step with
  | Some s => Some s
  | None => steps_current self
  end.

(** The keyword arguments every form receives, for a given container. *)
Definition wizard_kwargs (self : View) (page : pyval) : dict :=
  <["wizard_page" := page]>
    (<["wizard_user" := user (request self)]>
       (<["wizard_language" := language_code self]> ∅)).

(** What [get_selected_entry] and [get_origin_page] make of the answer of
    [get_cleaned_data_for_step('0')]: [data['entry']] looked up in the
    registry, and [data.get('page')]. *)
Definition entry_of_cleaned `{C : Collaborators} (cleaned : result (option dict)) : result Wizard.t :=
  match cleaned with
  | Raise e => Raise e
  | Ok None => Raise TypeError
  | Ok (Some data) =>
      match data !! "entry" with
      | None => Raise KeyError
      | Some entry => wizard_pool_get_entry entry
      end
  end.

Definition page_of_cleaned (cleaned : result (option dict)) : result pyval :=
  match cleaned with
  | Raise e => Raise e
  | Ok None => Raise AttributeError
  | Ok (Some data) => Ok (dict_get data "page")
  end.

(** The exception with which the entry selection fails when the answer
    of [get_cleaned_data_for_step('0')] provides no entry identifier:
    [TypeError] for [None], [KeyError] for a mapping without 'entry', and
    the engine's own exception when the call did not return. *)
Definition missing_entry_error (cleaned : result (option dict)) : option exn :=
  match cleaned with
  | Raise e => Some e
  | Ok None => Some TypeError
  | Ok (Some data) =>
      match data !! "entry" with
      | None => Some KeyError
      | Some _ => None
      end
  end.

(** *** Validating step '0' again, spelled out

    What one call of [get_cleaned_data_for_step('0')] comes to, once
    [get_form], [get_form_kwargs] and [get_form_initial] are run for
    step '0'; [first_step_cleaned] below proves it. *)

Definition first_step_initial (self : View) : dict :=
  <["page" := dict_get (GET (request self)) "page"]> (default ∅ (initial_dict self !! "0")).

Definition write_through_first_step (self : View) : View :=
  if bool_decide (is_Some (initial_dict self !! "0")) then
    set_initial_dict (<["0" := first_step_initial self]> (initial_dict self)) self
  else self.

Definition first_step_form (self : View) (cls : form_class) (st : Storage) (page : pyval) : BoundForm :=
  {| form_cls := cls; form_data := step_data st !! "0"; form_files := step_files st !! "0";
     form_prefix := "0"; form_initial := first_step_initial self;
     form_kwargs := wizard_kwargs self page |}.

Definition revalidate_first_step `{C : Collaborators} (self : View) : result (option dict) * View :=
  match form_list self !! "0", storage self with
  | None, _ => (Ok None, self)
  | Some _, None => (Raise AttributeError, self)
  | Some cls, Some st =>
      let pk := submitted_page_pk "0" (step_data st !! "0") in
      let self1 := set_page_pk pk self in
      match Page_objects_filter_first (or_val pk (dict_get (GET (request self)) "page")) with
      | Raise e => (Raise e, self1)
      | Ok page =>
          let form := first_step_form self cls st page in
          (Ok (if form_is_valid form then Some (form_cleaned_data form) else None),
           write_through_first_step self1)
      end
  end.

(** What validating step '0' again reads of the view. *)
Definition first_step_reads (self : View) :=
  (language_code self, request self, storage self, form_list self !! "0",
   first_step_initial self).

(** ** A concrete installation

    One registered entry, one existing page (primary key 7), a step-one
    form with a required 'entry' choice and an optional 'page' choice, and
    an engine that is handling the final, valid submission: it hands both
    validated forms to [done]. *)

(** The page manager on an integer primary key: the key is converted as
    Python's [int] converts it, so [None] matches nothing, text that is
    not a decimal number raises [ValueError], and a number outside the 64
    bits of the column raises [OverflowError]. *)
Fixpoint lstrip (s : string) : string :=
  match s with
  | EmptyString => EmptyString
  | String a s' => if Ascii.is_space a then lstrip s' else s
  end.

Definition strip (s : string) : string :=
  String.rev (lstrip (String.rev (lstrip s))).

Fixpoint parse_digits (acc : Z) (s : string) : option Z :=
  match s with
  | EmptyString => Some acc
  | String a s' =>
      match Ascii.is_nat a with
      | Some d => parse_digits (10 * acc + Z.of_nat d) s'
      | None => None
      end
  end.

Definition python_int (s : string) : option Z :=
  match strip s with
  | EmptyString => None
  | String "-"%char EmptyString => None
  | String "+"%char EmptyString => None
  | String "-"%char digits => Z.opp <$> parse_digits 0 digits
  | String "+"%char digits => parse_digits 0 digits
  | digits => parse_digits 0 digits
  end.

Definition page_by_pk (pages : gset Z) (pk : Z) : result pyval :=
  if (pk <? - 2 ^ 63) || (2 ^ 63 <=? pk) then Raise OverflowError
  else if bool_decide (pk ∈ pages) then Ok (VPage pk)
  else Ok VNone.

Definition filter_pk_first (pages : gset Z) (pk : pyval) : result pyval :=
  match pk with
  | VNone => Ok VNone
  | VInt n => page_by_pk pages n
  | VPage n => page_by_pk pages n
  | VStr s =>
      match python_int s with
      | Some n => page_by_pk pages n
      | None => Raise ValueError
      end
  | VUser _ | VObj _ => Raise TypeError
  end.

Definition site_pages : pyval → result pyval := filter_pk_first {[ 7 ]}.

Definition page_entry : Wizard.t :=
  {| Wizard.id := "cmspage";
     Wizard.form := EntryForm "CreateCMSPageForm";
     Wizard.template_name := "cms/wizards/create.html";
     Wizard.get_success_url := λ obj language,
       match obj, language with
       | VObj _, VStr l => "/" +:+ l +:+ "/new-page/"
       | _, _ => "/"
       end |}.

(** Validation of the step-one form: 'entry' must name the registered
    entry; 'page' may be left out or empty, and must otherwise name an
    existing page. *)
Definition site_clean (form : BoundForm) : option dict :=
  match form_cls form, form_data form with
  | WizardStep1Form, Some data =>
      match data !! (form_prefix form +:+ "-entry") with
      | Some (VStr "cmspage") =>
          match data !! (form_prefix form +:+ "-page") with
          | None | Some VNone | Some (VStr "") =>
              Some (<["entry" := VStr "cmspage"]> {["page" := VNone]})
          | Some pk =>
              match site_pages pk with
              | Ok (VPage n) => Some (<["entry" := VStr "cmspage"]> {["page" := VPage n]})
              | _ => None
              end
          end
      | _ => None
      end
  | _, _ => None
  end.

Definition editor : Request :=
  {| user := VUser "editor"; GET := {["page" := VStr "7"]} |}.

Definition editor_no_hint : Request :=
  {| user := VUser "editor"; GET := ∅ |}.

Definition editor_bad_hint : Request :=
  {| user := VUser "editor"; GET := {["page" := VStr "zzz"]} |}.

(** The storage at step one, nothing submitted yet, and at step two, with
    the valid submission of step one stored. *)
Definition storage_step_one : Storage :=
  {| current_step := Some "0"; step_data := ∅; step_files := ∅ |}.

Definition storage_step_two : Storage :=
  {| current_step := Some "1";
     step_data := {["0" := <["0-entry" := VStr "cmspage"]> {["0-page" := VStr "7"]}]};
     step_files := ∅ |}.

Definition step_one_view_bad_hint : View :=
  {| language_code := VStr "en"; page_pk := None;
     form_list := static_form_list; initial_dict := ∅;
     request := editor_bad_hint; storage := Some storage_step_one |}.

Definition step_one_view : View :=
  {| language_code := VStr "en"; page_pk := None;
     form_list := static_form_list; initial_dict := ∅;
     request := editor; storage := Some storage_step_one |}.

Definition step_two_view : View :=
  {| language_code := VStr "en"; page_pk := None;
     form_list := static_form_list; initial_dict := ∅;
     request := editor_no_hint; storage := Some storage_step_two |}.

(** Submitted data for step one: naming the existing page, naming a
    page that does not exist, and carrying a key that is not a number. *)
Definition post_page_seven : option dict := Some {["0-page" := VStr "7"]}.

Definition post_page_unknown : option dict := Some {["0-page" := VStr "999"]}.

Definition post_page_malformed : option dict := Some {["0-page" := VStr "zzz"]}.

(** The form [get_form] builds for step one from [post_page_seven]. *)
Definition step_one_bound_form : BoundForm :=
  {| form_cls := WizardStep1Form; form_data := post_page_seven; form_files := None;
     form_prefix := "0"; form_initial := {["page" := VStr "7"]};
     form_kwargs :=
       <["wizard_page" := VPage 7]>
         (<["wizard_user" := VUser "editor"]> {["wizard_language" := VStr "en"]}) |}.

Definition step_one_form : BoundForm :=
  {| form_cls := WizardStep1Form; form_data := None; form_files := None;
     form_prefix := "0"; form_initial := ∅; form_kwargs := ∅ |}.

Definition step_two_form : BoundForm :=
  {| form_cls := step2_form_factory WizardStep2BaseForm (EntryForm "CreateCMSPageForm");
     form_data := None; form_files := None;
     form_prefix := "1"; form_initial := ∅; form_kwargs := ∅ |}.

Definition site : Collaborators :=
  {| DB := list pyval;
     wizard_pool_entries := {["cmspage" := page_entry]};
     Page_objects_filter_first := site_pages;
     get_language_from_request := λ _, "en";
     form_clean := site_clean;
     form_save := λ form db,
       let obj := VObj (Z.of_nat (length db)) in (Ok obj, obj :: db);
     super_get_context_data := λ self kwargs, kwargs;
     super_dispatch := λ self request done, done self [step_one_form; step_two_form] |}.

(** The same installation with a persistence layer that fails in the
    middle of [save], after a first row has been written. *)
Definition failing_site : Collaborators :=
  {| DB := list pyval;
     wizard_pool_entries := {["cmspage" := page_entry]};
     Page_objects_filter_first := site_pages;
     get_language_from_request := λ _, "en";
     form_clean := site_clean;
     form_save := λ form db, (Raise DatabaseError, VObj 0 :: db);
     super_get_context_data := λ self kwargs, kwargs;
     super_dispatch := λ self request done, done self [step_one_form; step_two_form] |}.

(** The same installation with a step-one form that has no fields: every
    submission is valid and its cleaned data is the empty mapping. *)
Definition fieldless_site : Collaborators :=
  {| DB := list pyval;
     wizard_pool_entries := {["cmspage" := page_entry]};
     Page_objects_filter_first := site_pages;
     get_language_from_request := λ _, "en";
     form_clean := λ _, Some ∅;
     form_save := λ form db,
       let obj := VObj (Z.of_nat (length db)) in (Ok obj, obj :: db);
     super_get_context_data := λ self kwargs, kwargs;
     super_dispatch := λ self request done, done self [step_one_form; step_two_form] |}.

(** A view the engine has not set up yet: no [storage], no [steps]. *)
Definition fresh_view : View :=
  {| language_code := VNone; page_pk := None; form_list := static_form_list;
     initial_dict := ∅; request := editor; storage := None |}.

(** A view configured with initial data for both steps, on a request
    without a 'page' parameter. *)
Definition configured_initial : dict :=
  <["page" := VInt 5]> {["entry" := VStr "cmspage"]}.

Definition configured_view : View :=
  {| language_code := VStr "en"; page_pk := None; form_list := static_form_list;
     initial_dict := <["0" := configured_initial]> {["1" := {["title" := VStr "Home"]}]};
     request := editor_no_hint; storage := Some storage_step_one |}.

Example site_pages_answers :
  site_pages (VStr "7") = Ok (VPage 7) ∧ site_pages (VStr " 7 ") = Ok (VPage 7) ∧
  site_pages (VStr "999") = Ok VNone ∧ site_pages VNone = Ok VNone ∧
  site_pages (VStr "zzz") = Raise ValueError ∧ site_pages (VStr "") = Raise ValueError ∧
  site_pages (VStr "99999999999999999999") = Raise OverflowError.
Proof. repeat split; vm_compute; reflexivity. Qed.

Example step_two_view_cleaned :
  get_cleaned_data_for_step (C := site) "0" step_two_view
  = (Ok (Some (<["entry" := VStr "cmspage"]> {["page" := VPage 7]})),
     set_page_pk (VStr "7") step_two_view).
Proof. vm_compute. reflexivity. Qed.

(** ** Properties *)

Section Properties.

Context `{C : Collaborators}.

Implicit Types (self : View) (step : option string) (s : string).
Implicit Types (data files : option dict) (form : BoundForm).

(** Unfold the plumbing of the state-and-exception monad. *)
Ltac run_M :=
  unfold mbind, mret, M_bind, M_ret, result_bind, result_ret,
    modify, gets, lift, raise, id; cbn beta iota.

Lemma or_step_named s other : s ≠ "" → or_step (Some s) other = Some s.
Proof.
  intros Hs. unfold or_step; simpl.
  destruct (String.eqb_spec s ""); [contradiction | reflexivity].
Qed.

Lemma is_second_step_named self s :
  s ≠ "" → is_second_step self (Some s) = bool_decide (s = "1").
Proof.
  intros Hs. unfold is_second_step. rewrite or_step_named by done.
  apply bool_decide_ext. naive_solver.
Qed.

Lemma is_first_step_named self s :
  s ≠ "" → is_first_step self (Some s) = bool_decide (s = "0").
Proof.
  intros Hs. unfold is_first_step. rewrite or_step_named by done.
  apply bool_decide_ext. naive_solver.
Qed.

Lemma is_first_step_current self :
  is_first_step self None = bool_decide (steps_current self = Some "0").
Proof. reflexivity. Qed.

Lemma is_second_step_current self :
  is_second_step self None = bool_decide (steps_current self = Some "1").
Proof. reflexivity. Qed.

(** The second step is never the step '0'. *)
Lemma second_step_not_first self s :
  is_second_step self (Some s) = true → s ≠ "0".
Proof.
  intros Hsec ->. rewrite is_second_step_named in Hsec by done.
  by apply bool_decide_eq_true_1 in Hsec.
Qed.

(** *** [get_form_initial] *)

Lemma set_initial_dict_same self : set_initial_dict (initial_dict self) self = self.
Proof. by destruct self. Qed.

(** [get_form_initial] never raises and assigns nothing but, through the
    shared mapping, [initial_dict]. *)
Lemma get_form_initial_shape step self :
  ∃ initial idict,
    get_form_initial step self = (Ok initial, set_initial_dict idict self).
Proof.
  unfold get_form_initial.
  destruct (is_first_step self step).
  - destruct step as [s|].
    + case_bool_decide; [by eauto|].
      eexists _, (initial_dict self). by rewrite set_initial_dict_same.
    + eexists _, (initial_dict self). by rewrite set_initial_dict_same.
  - eexists _, (initial_dict self). by rewrite set_initial_dict_same.
Qed.

(** Computing the initial data of a step a second time gives the same
    data and changes nothing more. *)
Lemma get_form_initial_again step self :
  get_form_initial step (get_form_initial step self).2 = get_form_initial step self.
Proof.
  unfold get_form_initial.
  destruct (is_first_step self step) eqn:Hfirst; [|simpl; by rewrite Hfirst].
  destruct step as [s|]; [|simpl; by rewrite Hfirst].
  case_bool_decide as Hsome; [|simpl; rewrite Hfirst; by rewrite bool_decide_eq_false_2].
  simpl.
  change (is_first_step (set_initial_dict _ self) (Some s)) with (is_first_step self (Some s)).
  rewrite Hfirst. unfold SessionWizardView_get_form_initial.
  change (initial_dict (set_initial_dict ?x self)) with x.
  rewrite lookup_insert_eq.
  case_bool_decide as Hsome'; [|exfalso; apply Hsome'; eauto].
  simpl. rewrite !insert_insert_eq. reflexivity.
Qed.

(** The initial data of a step other than the first is the engine's, and
    the view is left alone. *)
Lemma get_form_initial_not_first step self :
  is_first_step self step = false →
  get_form_initial step self = (Ok (SessionWizardView_get_form_initial self step), self).
Proof. intros Hfirst. unfold get_form_initial. by rewrite Hfirst. Qed.

Lemma get_form_initial_first self :
  get_form_initial (Some "0") self
  = (Ok (first_step_initial self), write_through_first_step self).
Proof.
  unfold get_form_initial, first_step_initial, write_through_first_step.
  rewrite is_first_step_named by done. rewrite bool_decide_eq_true_2 by done.
  simpl. by case_bool_decide.
Qed.

(** *** The methods run, for any way of reaching the cleaned data *)

Section AnyAccessor.

Variable acc : string → M View (option dict).

Lemma self_get_form_kwargs_not_second self step :
  is_second_step self step = false →
  Self.get_form_kwargs acc step self =
  match page_pk self with
  | None => (Raise AttributeError, self)
  | Some pk =>
      match Page_objects_filter_first (or_val pk (dict_get (GET (request self)) "page")) with
      | Ok page => (Ok (wizard_kwargs self page), self)
      | Raise e => (Raise e, self)
      end
  end.
Proof.
  intros Hsec. unfold Self.get_form_kwargs. run_M. rewrite Hsec.
  destruct (page_pk self) as [pk|]; [|reflexivity].
  destruct (Page_objects_filter_first _); reflexivity.
Qed.

Lemma self_get_form_kwargs_second self step :
  is_second_step self step = true →
  Self.get_form_kwargs acc step self =
  match Self.get_origin_page acc self with
  | (Ok page, self') => (Ok (wizard_kwargs self page), self')
  | (Raise e, self') => (Raise e, self')
  end.
Proof.
  intros Hsec. unfold Self.get_form_kwargs. run_M. rewrite Hsec.
  destruct (Self.get_origin_page acc self) as [[page|e] self']; reflexivity.
Qed.

Lemma self_engine_get_form self s data files :
  Self.SessionWizardView_get_form acc s data files self =
  match form_list self !! s with
  | None => (Raise KeyError, self)
  | Some cls =>
      match Self.get_form_kwargs acc (Some s) self with
      | (Raise e, self') => (Raise e, self')
      | (Ok kwargs, self') =>
          match get_form_initial (Some s) self' with
          | (Ok initial, self'') =>
              (Ok {| form_cls := cls; form_data := data; form_files := files;
                     form_prefix := s; form_initial := initial; form_kwargs := kwargs |},
               self'')
          | (Raise e, self'') => (Raise e, self'')
          end
      end
  end.
Proof.
  unfold Self.SessionWizardView_get_form. run_M.
  destruct (form_list self !! s) as [cls|]; [|reflexivity].
  destruct (Self.get_form_kwargs acc (Some s) self) as [[kwargs|e] self']; reflexivity.
Qed.

Lemma self_get_form_target self step s data files :
  target_step self step = Some s →
  Self.get_form acc step data files self = Self.get_form acc (Some s) data files self.
Proof.
  destruct step as [s'|]; simpl.
  - by intros [= ->].
  - intros Hcur. unfold Self.get_form. run_M. rewrite Hcur. reflexivity.
Qed.

Lemma self_get_form_named self s data files :
  Self.get_form acc (Some s) data files self =
  let self1 := set_page_pk (submitted_page_pk s data) self in
  if is_second_step self (Some s) then
    match Self.get_selected_entry acc self1 with
    | (Raise e, selfA) => (Raise e, selfA)
    | (Ok entry, selfA) =>
        let cls := step2_form_factory WizardStep2BaseForm (Wizard.form entry) in
        Self.SessionWizardView_get_form acc s data files
          (set_form_list (<[s := cls]> (form_list selfA)) selfA)
    end
  else Self.SessionWizardView_get_form acc s data files self1.
Proof.
  unfold Self.get_form, submitted_page_pk, Self.get_step_2_form.
  destruct (data_truthy data); run_M;
    (change (is_second_step (set_page_pk _ self) (Some s))
       with (is_second_step self (Some s)));
    destruct (is_second_step self (Some s)); try reflexivity;
    destruct (Self.get_selected_entry acc _) as [[entry|e] selfA]; reflexivity.
Qed.

(** Validating step '0' again never asks for cleaned data itself. *)
Lemma self_accessor_first_step self :
  Self.SessionWizardView_get_cleaned_data_for_step acc "0" self = revalidate_first_step self.
Proof.
  unfold Self.SessionWizardView_get_cleaned_data_for_step, revalidate_first_step. run_M.
  destruct (form_list self !! "0") as [cls|] eqn:Hcls.
  2: { rewrite bool_decide_eq_false_2; [done | by intros [? ?]]. }
  rewrite bool_decide_eq_true_2 by eauto.
  destruct (storage self) as [st|] eqn:Hst; [|reflexivity].
  rewrite self_get_form_named. cbv zeta.
  rewrite is_second_step_named by done. rewrite bool_decide_eq_false_2 by done.
  set (pk := submitted_page_pk "0" (step_data st !! "0")).
  rewrite self_engine_get_form.
  change (form_list (set_page_pk pk self)) with (form_list self). rewrite Hcls.
  rewrite self_get_form_kwargs_not_second
    by (rewrite is_second_step_named by done; by rewrite bool_decide_eq_false_2).
  cbn [page_pk request set_page_pk].
  destruct (Page_objects_filter_first _) as [page|e]; [|reflexivity].
  rewrite get_form_initial_first.
  change (wizard_kwargs (set_page_pk pk self) page) with (wizard_kwargs self page).
  change (first_step_initial (set_page_pk pk self)) with (first_step_initial self).
  fold (first_step_form self cls st page).
  by destruct (form_is_valid (first_step_form self cls st page)).
Qed.

End AnyAccessor.

(** *** Reaching the cleaned data one way or another *)

Section TwoAccessors.

Variables acc acc' : string → M View (option dict).

Hypothesis Hacc : ∀ self, acc "0" self = acc' "0" self.

Lemma self_get_selected_entry_ext self :
  Self.get_selected_entry acc self = Self.get_selected_entry acc' self.
Proof using Hacc. unfold Self.get_selected_entry. run_M. by rewrite Hacc. Qed.

Lemma self_get_origin_page_ext self :
  Self.get_origin_page acc self = Self.get_origin_page acc' self.
Proof using Hacc. unfold Self.get_origin_page. run_M. by rewrite Hacc. Qed.

Lemma self_get_form_kwargs_ext step self :
  Self.get_form_kwargs acc step self = Self.get_form_kwargs acc' step self.
Proof using Hacc.
  destruct (is_second_step self step) eqn:Hsec.
  - rewrite !self_get_form_kwargs_second by done. by rewrite self_get_origin_page_ext.
  - by rewrite !self_get_form_kwargs_not_second.
Qed.

Lemma self_engine_get_form_ext s data files self :
  Self.SessionWizardView_get_form acc s data files self
  = Self.SessionWizardView_get_form acc' s data files self.
Proof using Hacc. rewrite !self_engine_get_form. by rewrite self_get_form_kwargs_ext. Qed.

Lemma self_get_form_ext step data files self :
  Self.get_form acc step data files self = Self.get_form acc' step data files self.
Proof using Hacc.
  destruct (target_step self step) as [s|] eqn:Hstep.
  - rewrite !(self_get_form_target _ _ _ _ _ _ Hstep), !self_get_form_named. cbn zeta.
    destruct (is_second_step self (Some s)); [|apply self_engine_get_form_ext].
    rewrite self_get_selected_entry_ext.
    destruct (Self.get_selected_entry acc' _) as [[entry|e] selfA]; [|reflexivity].
    apply self_engine_get_form_ext.
  - destruct step as [s|]; [discriminate|]. simpl in Hstep.
    unfold Self.get_form. run_M. by rewrite Hstep.
Qed.

Lemma self_accessor_ext s self :
  Self.SessionWizardView_get_cleaned_data_for_step acc s self
  = Self.SessionWizardView_get_cleaned_data_for_step acc' s self.
Proof using Hacc.
  unfold Self.SessionWizardView_get_cleaned_data_for_step. run_M.
  case_bool_decide; [|reflexivity].
  destruct (storage self) as [st|]; [|reflexivity].
  by rewrite self_get_form_ext.
Qed.

End TwoAccessors.

(** Two rounds through [self] are enough: any further round gives the
    same answer and the same view, for every step. *)
Lemma get_cleaned_data_for_step_depth n s self :
  get_cleaned_data_for_step_upto (2 + n) s self = get_cleaned_data_for_step s self.
Proof.
  unfold get_cleaned_data_for_step. simpl.
  apply self_accessor_ext. intros self0.
  by rewrite !self_accessor_first_step.
Qed.

Lemma first_step_cleaned self :
  get_cleaned_data_for_step "0" self = revalidate_first_step self.
Proof. apply self_accessor_first_step. Qed.

(** *** Validating step '0' again: what it reads, what it leaves *)

Lemma revalidate_reads (a b : View) :
  first_step_reads a = first_step_reads b →
  (revalidate_first_step a).1 = (revalidate_first_step b).1.
Proof.
  unfold first_step_reads. intros [= Hlang Hreq Hsto Hcls Hini].
  unfold revalidate_first_step. rewrite Hcls, Hsto, Hreq.
  destruct (form_list b !! "0") as [cls|]; [|reflexivity].
  destruct (storage b) as [st|]; [|reflexivity]. cbv zeta.
  destruct (Page_objects_filter_first _) as [page|e]; [|reflexivity].
  assert (Hform : first_step_form a cls st page = first_step_form b cls st page).
  { unfold first_step_form, wizard_kwargs. by rewrite Hlang, Hreq, Hini. }
  by rewrite Hform.
Qed.

Lemma first_step_reads_written self :
  first_step_reads (write_through_first_step self) = first_step_reads self.
Proof.
  unfold write_through_first_step. case_bool_decide; [|reflexivity].
  unfold first_step_reads, first_step_initial. simpl.
  rewrite lookup_insert_eq. simpl. by rewrite insert_insert_eq.
Qed.

Lemma revalidate_keeps self :
  first_step_reads (revalidate_first_step self).2 = first_step_reads self.
Proof.
  unfold revalidate_first_step.
  destruct (form_list self !! "0") as [cls|]; [|reflexivity].
  destruct (storage self) as [st|]; [|reflexivity]. cbv zeta.
  destruct (Page_objects_filter_first _) as [page|e]; [|reflexivity].
  simpl. by rewrite first_step_reads_written.
Qed.

(** It assigns [page_pk] and, through the shared mapping, [initial_dict],
    and nothing else. *)
Lemma revalidate_shape self :
  (revalidate_first_step self).2 = self ∨
  ∃ pk idict, (revalidate_first_step self).2 = set_initial_dict idict (set_page_pk pk self).
Proof.
  unfold revalidate_first_step.
  destruct (form_list self !! "0") as [cls|]; [|by left].
  destruct (storage self) as [st|]; [|by left]. cbv zeta. right.
  destruct (Page_objects_filter_first _) as [page|e]; simpl.
  - unfold write_through_first_step. case_bool_decide; [by eauto|].
    eexists _, (initial_dict self). by destruct self.
  - eexists _, (initial_dict self). by destruct self.
Qed.

Lemma revalidate_form_list self :
  form_list (revalidate_first_step self).2 = form_list self.
Proof. destruct (revalidate_shape self) as [->|(pk & idict & ->)]; done. Qed.

Lemma revalidate_storage self :
  storage (revalidate_first_step self).2 = storage self.
Proof. destruct (revalidate_shape self) as [->|(pk & idict & ->)]; done. Qed.

Lemma revalidate_request self :
  request (revalidate_first_step self).2 = request self.
Proof. destruct (revalidate_shape self) as [->|(pk & idict & ->)]; done. Qed.

Lemma revalidate_language_code self :
  language_code (revalidate_first_step self).2 = language_code self.
Proof. destruct (revalidate_shape self) as [->|(pk & idict & ->)]; done. Qed.

Lemma revalidate_initial_dict self s :
  s ≠ "0" →
  initial_dict (revalidate_first_step self).2 !! s = initial_dict self !! s.
Proof.
  intros Hs. unfold revalidate_first_step.
  destruct (form_list self !! "0") as [cls|]; [|reflexivity].
  destruct (storage self) as [st|]; [|reflexivity]. cbv zeta.
  destruct (Page_objects_filter_first _) as [page|e]; [|reflexivity].
  simpl. unfold write_through_first_step. case_bool_decide; [|reflexivity].
  simpl. by rewrite lookup_insert_ne.
Qed.

Lemma write_through_again pk self :
  write_through_first_step (set_page_pk pk (write_through_first_step (set_page_pk pk self)))
  = write_through_first_step (set_page_pk pk self).
Proof.
  unfold write_through_first_step.
  change (initial_dict (set_page_pk pk self)) with (initial_dict self).
  destruct (decide (is_Some (initial_dict self !! "0"))) as [Hsome|Hnone].
  - rewrite (bool_decide_eq_true_2 _ Hsome). simpl.
    rewrite lookup_insert_eq. rewrite bool_decide_eq_true_2 by eauto.
    unfold first_step_initial. simpl. rewrite lookup_insert_eq. simpl.
    by rewrite !insert_insert_eq.
  - rewrite (bool_decide_eq_false_2 _ Hnone). simpl.
    by rewrite (bool_decide_eq_false_2 _ Hnone).
Qed.

(** Validating again changes nothing more and answers the same. *)
Lemma revalidate_again self :
  revalidate_first_step (revalidate_first_step self).2 = revalidate_first_step self.
Proof.
  pose proof (revalidate_reads _ _ (revalidate_keeps self)) as Hfst.
  apply injective_projections; [exact Hfst|]. clear Hfst.
  unfold revalidate_first_step at 2 3.
  destruct (form_list self !! "0") as [cls|] eqn:Hcls.
  2: { simpl. unfold revalidate_first_step. by rewrite Hcls. }
  destruct (storage self) as [st|] eqn:Hst.
  2: { simpl. unfold revalidate_first_step. by rewrite Hcls, Hst. }
  cbv zeta. set (pk := submitted_page_pk "0" (step_data st !! "0")).
  destruct (Page_objects_filter_first _) as [page|e] eqn:Hpage; simpl.
  - unfold revalidate_first_step.
    assert (Hfl : form_list (write_through_first_step (set_page_pk pk self)) !! "0" = Some cls).
    { unfold write_through_first_step. by case_bool_decide. }
    assert (Hsto : storage (write_through_first_step (set_page_pk pk self)) = Some st).
    { unfold write_through_first_step. by case_bool_decide. }
    assert (Hreq : request (write_through_first_step (set_page_pk pk self)) = request self).
    { unfold write_through_first_step. by case_bool_decide. }
    rewrite Hfl, Hsto, Hreq. cbv zeta. fold pk. rewrite Hpage. simpl.
    apply write_through_again.
  - unfold revalidate_first_step. simpl. rewrite Hcls, Hst. cbv zeta. fold pk.
    by rewrite Hpage.
Qed.

(** *** The view's methods, run *)

Lemma get_selected_entry_run self :
  get_selected_entry self
  = (entry_of_cleaned (revalidate_first_step self).1, (revalidate_first_step self).2).
Proof.
  unfold get_selected_entry, Self.get_selected_entry. run_M.
  rewrite first_step_cleaned.
  destruct (revalidate_first_step self) as [[[d|]|e] self']; simpl; try reflexivity.
  destruct (d !! "entry"); reflexivity.
Qed.

Lemma get_origin_page_run self :
  get_origin_page self
  = (page_of_cleaned (revalidate_first_step self).1, (revalidate_first_step self).2).
Proof.
  unfold get_origin_page, Self.get_origin_page. run_M.
  rewrite first_step_cleaned.
  by destruct (revalidate_first_step self) as [[[d|]|e] self'].
Qed.

Lemma get_selected_entry_Ok self entry :
  (get_selected_entry self).1 = Ok entry →
  ∃ d entry_id,
    (get_cleaned_data_for_step "0" self).1 = Ok (Some d) ∧
    d !! "entry" = Some (VStr entry_id) ∧
    wizard_pool_entries !! entry_id = Some entry.
Proof.
  rewrite get_selected_entry_run, first_step_cleaned. simpl.
  destruct (revalidate_first_step self).1 as [[d|]|e]; simpl; try discriminate.
  destruct (d !! "entry") as [v|] eqn:Hv; [|discriminate].
  destruct v as [|entry_id| | | |]; try discriminate. simpl.
  destruct (wizard_pool_entries !! entry_id) as [e|] eqn:He; [|discriminate].
  intros [= ->]. eauto.
Qed.

Lemma steps_current_storage (a b : View) :
  storage a = storage b → steps_current a = steps_current b.
Proof. unfold steps_current. by intros ->. Qed.

Lemma is_second_step_storage (a b : View) step :
  storage a = storage b → is_second_step a step = is_second_step b step.
Proof.
  intros Hsto. unfold is_second_step, get_current_step.
  by rewrite (steps_current_storage a b Hsto).
Qed.

Lemma is_first_step_storage (a b : View) step :
  storage a = storage b → is_first_step a step = is_first_step b step.
Proof.
  intros Hsto. unfold is_first_step, get_current_step.
  by rewrite (steps_current_storage a b Hsto).
Qed.

Lemma second_step_is_not_first self step :
  is_second_step self step = true → is_first_step self step = false.
Proof.
  unfold is_first_step, is_second_step.
  destruct (or_step step (get_current_step self)) as [s|]; [|done].
  intros Hsec%bool_decide_eq_true_1. apply bool_decide_eq_false_2. congruence.
Qed.

(** Leaving the step out is asking for the current step. *)
Lemma get_form_target_step self step s data files :
  target_step self step = Some s →
  get_form step data files self = get_form (Some s) data files self.
Proof. apply self_get_form_target. Qed.

(** The engine's [get_form] for a step that is not the second one. *)
Lemma engine_get_form_not_second self s data files :
  is_second_step self (Some s) = false →
  SessionWizardView_get_form s data files self =
  match form_list self !! s with
  | None => (Raise KeyError, self)
  | Some cls =>
      match page_pk self with
      | None => (Raise AttributeError, self)
      | Some pk =>
          match Page_objects_filter_first
                  (or_val pk (dict_get (GET (request self)) "page")) with
          | Raise e => (Raise e, self)
          | Ok page =>
              match get_form_initial (Some s) self with
              | (Ok initial, self') =>
                  (Ok {| form_cls := cls; form_data := data; form_files := files;
                         form_prefix := s; form_initial := initial;
                         form_kwargs := wizard_kwargs self page |},
                   self')
              | (Raise e, self') => (Raise e, self')
              end
          end
      end
  end.
Proof.
  intros Hsec. unfold SessionWizardView_get_form. rewrite self_engine_get_form.
  destruct (form_list self !! s) as [cls|]; [|reflexivity].
  rewrite self_get_form_kwargs_not_second by done.
  destruct (page_pk self) as [pk|]; [|reflexivity].
  destruct (Page_objects_filter_first _) as [page|e]; reflexivity.
Qed.

(** [get_form] for a step that is not the second one: the page key is
    recorded and the engine instantiates the class registered for the
    step. *)
Lemma get_form_not_second self s data files :
  is_second_step self (Some s) = false →
  get_form (Some s) data files self =
  SessionWizardView_get_form s data files (set_page_pk (submitted_page_pk s data) self).
Proof.
  intros Hsec. unfold get_form. rewrite self_get_form_named. cbv zeta.
  by rewrite Hsec.
Qed.

Lemma get_form_other_step self s data files :
  s ≠ "" → s ≠ "1" →
  get_form (Some s) data files self =
  SessionWizardView_get_form s data files (set_page_pk (submitted_page_pk s data) self).
Proof.
  intros Hs H1. apply get_form_not_second.
  rewrite is_second_step_named by done. by apply bool_decide_eq_false_2.
Qed.

(** [get_form] for the second step, run to the end: the page key is
    recorded, step '0' is validated again to select the entry, the class
    built from the entry's form is installed, step '0' is validated once
    more for the origin page, and the class is instantiated. *)
Lemma get_form_second_step_run self s data files :
  is_second_step self (Some s) = true →
  get_form (Some s) data files self =
  let self1 := set_page_pk (submitted_page_pk s data) self in
  let selfA := (revalidate_first_step self1).2 in
  match entry_of_cleaned (revalidate_first_step self).1 with
  | Raise e => (Raise e, selfA)
  | Ok entry =>
      let cls := step2_form_factory WizardStep2BaseForm (Wizard.form entry) in
      let selfB := set_form_list (<[s := cls]> (form_list self)) selfA in
      let selfC := (revalidate_first_step selfB).2 in
      match page_of_cleaned (revalidate_first_step self).1 with
      | Raise e => (Raise e, selfC)
      | Ok page =>
          (Ok {| form_cls := cls; form_data := data; form_files := files;
                 form_prefix := s;
                 form_initial := SessionWizardView_get_form_initial self (Some s);
                 form_kwargs := wizard_kwargs self page |},
           selfC)
      end
  end.
Proof.
  intros Hsec. pose proof (second_step_not_first _ _ Hsec) as Hs0.
  unfold get_form. rewrite self_get_form_named. cbv zeta. rewrite Hsec.
  set (self1 := set_page_pk (submitted_page_pk s data) self).
  fold get_selected_entry. rewrite get_selected_entry_run.
  assert (Hr1 : (revalidate_first_step self1).1 = (revalidate_first_step self).1)
    by (by apply revalidate_reads).
  rewrite Hr1.
  set (selfA := (revalidate_first_step self1).2).
  destruct (entry_of_cleaned (revalidate_first_step self).1) as [entry|e]; [|reflexivity].
  assert (HflA : form_list selfA = form_list self)
    by (unfold selfA; by rewrite revalidate_form_list).
  rewrite HflA.
  set (cls := step2_form_factory WizardStep2BaseForm (Wizard.form entry)).
  set (selfB := set_form_list (<[s := cls]> (form_list self)) selfA).
  assert (HstoB : storage selfB = storage self)
    by (unfold selfB, selfA; simpl; by rewrite revalidate_storage).
  assert (HreadsB : first_step_reads selfB = first_step_reads self).
  { transitivity (first_step_reads selfA);
      [|exact (revalidate_keeps self1)].
    unfold first_step_reads, selfB. simpl. by rewrite lookup_insert_ne, HflA. }
  rewrite self_engine_get_form.
  change (form_list selfB) with (<[s := cls]> (form_list self)).
  rewrite lookup_insert_eq.
  rewrite self_get_form_kwargs_second
    by (by rewrite (is_second_step_storage _ _ _ HstoB)).
  fold get_origin_page. rewrite get_origin_page_run.
  rewrite (revalidate_reads _ _ HreadsB).
  set (selfC := (revalidate_first_step selfB).2).
  destruct (page_of_cleaned (revalidate_first_step self).1) as [page|e]; [|reflexivity].
  assert (HstoC : storage selfC = storage self)
    by (unfold selfC; by rewrite revalidate_storage).
  rewrite get_form_initial_not_first.
  2: { rewrite (is_first_step_storage _ _ _ HstoC). by apply second_step_is_not_first. }
  assert (Hkw : wizard_kwargs selfB page = wizard_kwargs self page).
  { unfold wizard_kwargs, selfB, selfA. simpl.
    by rewrite revalidate_request, revalidate_language_code. }
  assert (Hini : SessionWizardView_get_form_initial selfC (Some s)
                 = SessionWizardView_get_form_initial self (Some s)).
  { unfold SessionWizardView_get_form_initial, selfC.
    rewrite revalidate_initial_dict by done. unfold selfB, selfA. simpl.
    by rewrite revalidate_initial_dict. }
  by rewrite Hkw, Hini.
Qed.

Lemma entry_of_cleaned_Ok (cleaned : result (option dict)) entry :
  entry_of_cleaned cleaned = Ok entry →
  ∃ d entry_id,
    cleaned = Ok (Some d) ∧ d !! "entry" = Some (VStr entry_id) ∧
    wizard_pool_entries !! entry_id = Some entry.
Proof.
  destruct cleaned as [[d|]|e]; simpl; try discriminate.
  destruct (d !! "entry") as [v|] eqn:Hv; [|discriminate].
  destruct v as [|entry_id| | | |]; try discriminate. simpl.
  destruct (wizard_pool_entries !! entry_id) as [e|] eqn:He; [|discriminate].
  intros [= ->]. eauto.
Qed.

Lemma entry_of_cleaned_missing (cleaned : result (option dict)) e :
  missing_entry_error cleaned = Some e → entry_of_cleaned cleaned = Raise e.
Proof.
  destruct cleaned as [[d|]|e']; simpl.
  - destruct (d !! "entry"); [discriminate|]. by intros [= <-].
  - by intros [= <-].
  - by intros [= <-].
Qed.

Lemma get_success_url_run self instance :
  (get_success_url instance self).1 =
  match (get_selected_entry self).1 with
  | Ok entry => Ok (Wizard.get_success_url entry instance (language_code self))
  | Raise e => Raise e
  end.
Proof.
  unfold get_success_url, Self.get_success_url. run_M.
  fold get_selected_entry. rewrite get_selected_entry_run. simpl.
  destruct (entry_of_cleaned _) as [entry|e]; [|reflexivity].
  simpl. by rewrite revalidate_language_code.
Qed.

(** C1. Whenever the form for step '1' is resolved, by naming the step or
    by leaving it out while '1' is the current step, its class is the one
    [step2_form_factory] builds from the step-two base mixin and the form
    class of the entry whose identifier step one's cleaned data holds and
    the registry knows; that class is installed in [form_list] under '1' and
    is not the statically registered placeholder. When no entry can be
    selected, resolution raises and no form is produced at all. *)
Theorem step_two_form_class_from_selected_entry self step data files :
  target_step self step = Some "1" →
  match (get_selected_entry self).1 with
  | Ok entry =>
      (∃ d entry_id,
         (get_cleaned_data_for_step "0" self).1 = Ok (Some d) ∧
         d !! "entry" = Some (VStr entry_id) ∧
         wizard_pool_entries !! entry_id = Some entry) ∧
      ∃ form self',
        get_form step data files self = (Ok form, self') ∧
        form_cls form = step2_form_factory WizardStep2BaseForm (Wizard.form entry) ∧
        form_list self' !! "1" = Some (form_cls form) ∧
        static_form_list !! "1" ≠ Some (form_cls form)
  | Raise e => (get_form step data files self).1 = Raise e
  end.
Proof.
  intros Hstep. rewrite (get_form_target_step _ _ _ _ _ Hstep).
  rewrite get_form_second_step_run
    by (rewrite is_second_step_named by done; by apply bool_decide_eq_true_2).
  destruct (get_selected_entry self).1 as [entry|e] eqn:Hsel.
  - split; [by apply get_selected_entry_Ok|].
    rewrite get_selected_entry_run in Hsel. simpl in Hsel. cbv zeta. rewrite Hsel.
    destruct (entry_of_cleaned_Ok _ _ Hsel) as (d & entry_id & -> & _ & _). simpl.
    eexists _, _. split; [reflexivity|]. simpl. split; [reflexivity|]. split.
    + rewrite revalidate_form_list. simpl. apply lookup_insert_eq.
    + unfold static_form_list. rewrite lookup_insert_ne by done.
      rewrite lookup_insert_eq. discriminate.
  - rewrite get_selected_entry_run in Hsel. simpl in Hsel. cbv zeta. by rewrite Hsel.
Qed.

(** C2, as the code has it. When [get_cleaned_data_for_step('0')] provides
    no entry identifier, resolving the form for step '1' raises:
    [TypeError] when it answers [None], [KeyError] when it answers a
    mapping without 'entry', and the engine's own exception when
    validating step '0' again raises. No form is instantiated, neither the
    placeholder nor an entry-specific one, and the classes registered in
    [form_list] are left as they were. *)
Theorem step_two_form_without_entry_raises self data files e :
  missing_entry_error (get_cleaned_data_for_step "0" self).1 = Some e →
  (get_form (Some "1") data files self).1 = Raise e ∧
  form_list (get_form (Some "1") data files self).2 = form_list self.
Proof.
  rewrite first_step_cleaned. intros Hmiss%entry_of_cleaned_missing.
  rewrite get_form_second_step_run
    by (rewrite is_second_step_named by done; by apply bool_decide_eq_true_2).
  cbv zeta. rewrite Hmiss. simpl. split; [reflexivity|].
  by rewrite revalidate_form_list.
Qed.

(** C3. With both forms validated, [done] saves the form at index 1, asks
    the selected entry for the success URL of the created object in the
    view's language, and answers with the done template whose context is
    the single binding of 'url' to that URL. *)
Theorem done_saves_and_returns_success_url
    self (forms : list BoundForm) form_two (db db' : DB) instance entry :
  forms !! 1%nat = Some form_two →
  form_save form_two db = (Ok instance, db') →
  (get_selected_entry self).1 = Ok entry →
  (get_success_url instance self).1
    = Ok (Wizard.get_success_url entry instance (language_code self)) ∧
  done self forms db =
    (Ok {| response_template := "cms/wizards/done.html";
           response_context :=
             {["url" := CtxVal (VStr (Wizard.get_success_url entry instance
                                        (language_code self)))]} |},
     db').
Proof.
  intros Hform Hsave Hsel.
  assert (Hurl : (get_success_url instance self).1
                 = Ok (Wizard.get_success_url entry instance (language_code self))).
  { rewrite get_success_url_run, Hsel. reflexivity. }
  split; [done|].
  unfold done. rewrite Hform. run_M. rewrite Hsave, Hurl. reflexivity.
Qed.

(** C4. [dispatch] runs the engine, and with it [done], inside one atomic
    block. When the engine finalizes the request and the save of the
    step-two form fails, whatever rows the save had already written, the
    persistent state after [dispatch] is the state before it, and
    [dispatch] raises instead of returning a response. *)
Theorem dispatch_rolls_back_failed_save
    self req (forms : list BoundForm) form_two (db db_partial : DB) e :
  let self' := set_language_code (VStr (get_language_from_request req)) self in
  super_dispatch self' req done = done self' forms →
  forms !! 1%nat = Some form_two →
  form_save form_two db = (Raise e, db_partial) →
  dispatch self req = atomic (super_dispatch self' req done) ∧
  dispatch self req db = (Raise e, db).
Proof.
  intros self' Hengine Hform Hsave. split; [reflexivity|].
  unfold dispatch, atomic. fold self'. rewrite Hengine.
  unfold done. rewrite Hform. run_M. rewrite Hsave. reflexivity.
Qed.

(** For a registered step other than '1', a key the page manager answers
    gives a form carrying that answer. *)
Lemma get_form_other_step_Ok self s data files cls page :
  s ≠ "" → s ≠ "1" →
  form_list self !! s = Some cls →
  Page_objects_filter_first
    (or_val (submitted_page_pk s data) (dict_get (GET (request self)) "page")) = Ok page →
  ∃ form self',
    get_form (Some s) data files self = (Ok form, self') ∧
    form_cls form = cls ∧ form_data form = data ∧ form_files form = files ∧
    form_prefix form = s ∧ form_kwargs form = wizard_kwargs self page.
Proof.
  intros Hs H1 Hcls Hpage. rewrite get_form_other_step by done.
  rewrite engine_get_form_not_second
    by (rewrite is_second_step_named by done; by apply bool_decide_eq_false_2).
  simpl. rewrite Hcls, Hpage.
  destruct (get_form_initial_shape (Some s) (set_page_pk (submitted_page_pk s data) self))
    as (initial & idict & ->).
  eexists _, _. split; [reflexivity|]. by simpl.
Qed.

(** A key that matches no page gives "no container": for a registered
    step other than '1', when the page manager answers [None] for the
    selected key, the form is constructed with 'wizard_page' bound to
    [None] and nothing is raised. *)
Lemma unmatched_page_key_gives_no_container self s data files cls :
  s ≠ "" → s ≠ "1" →
  form_list self !! s = Some cls →
  Page_objects_filter_first
    (or_val (submitted_page_pk s data) (dict_get (GET (request self)) "page"))
    = Ok VNone →
  ∃ form self',
    get_form (Some s) data files self = (Ok form, self') ∧
    form_kwargs form !! "wizard_page" = Some VNone.
Proof.
  intros Hs H1 Hcls Hnone.
  destruct (get_form_other_step_Ok self s data files cls VNone Hs H1 Hcls Hnone)
    as (form & self' & Hform & _ & _ & _ & _ & Hkw).
  exists form, self'. split; [done|]. rewrite Hkw. apply lookup_insert_eq.
Qed.

Lemma page_of_cleaned_Ok (cleaned : result (option dict)) page :
  page_of_cleaned cleaned = Ok page →
  ∃ d, cleaned = Ok (Some d) ∧ page = dict_get d "page".
Proof.
  destruct cleaned as [[d|]|e]; simpl; try discriminate.
  intros [= <-]. eauto.
Qed.

(** C6. The form constructed for a step (named, or the current step when
    none is named) receives the request's user
    as 'wizard_user', the view's language code as 'wizard_language', and
    as 'wizard_page': for step '1' the 'page' entry of step one's cleaned
    data ([None] when it has none); for any other step the container the
    page manager returns for the just-submitted '<step>-page' key or,
    when that is empty, for the request's 'page' parameter. *)
Theorem constructed_form_kwargs self step s data files form self' :
  target_step self step = Some s →
  s ≠ "" →
  get_form step data files self = (Ok form, self') →
  form_kwargs form !! "wizard_user" = Some (user (request self)) ∧
  form_kwargs form !! "wizard_language" = Some (language_code self) ∧
  ∃ page,
    form_kwargs form !! "wizard_page" = Some page ∧
    if bool_decide (s = "1") then
      (get_origin_page self).1 = Ok page ∧
      ∃ d, (get_cleaned_data_for_step "0" self).1 = Ok (Some d) ∧ page = dict_get d "page"
    else
      Page_objects_filter_first
        (or_val (submitted_page_pk s data) (dict_get (GET (request self)) "page"))
      = Ok page.
Proof.
  intros Hstep Hs Hform. rewrite (get_form_target_step _ _ _ _ _ Hstep) in Hform.
  assert (Hkw : ∃ page,
    form_kwargs form = wizard_kwargs self page ∧
    if bool_decide (s = "1") then
      (get_origin_page self).1 = Ok page ∧
      ∃ d, (get_cleaned_data_for_step "0" self).1 = Ok (Some d) ∧ page = dict_get d "page"
    else
      Page_objects_filter_first
        (or_val (submitted_page_pk s data) (dict_get (GET (request self)) "page"))
      = Ok page).
  { case_bool_decide as H1.
    - subst s. rewrite get_form_second_step_run in Hform
        by (rewrite is_second_step_named by done; by apply bool_decide_eq_true_2).
      cbv zeta in Hform.
      destruct (entry_of_cleaned (revalidate_first_step self).1) as [entry|];
        [|discriminate].
      destruct (page_of_cleaned (revalidate_first_step self).1) as [page|] eqn:Hpage;
        [|discriminate].
      injection Hform as <- _. exists page. split; [reflexivity|].
      rewrite get_origin_page_run, first_step_cleaned. simpl. split; [done|].
      by apply page_of_cleaned_Ok.
    - rewrite get_form_other_step in Hform by done.
      rewrite engine_get_form_not_second in Hform
        by (rewrite is_second_step_named by done; by apply bool_decide_eq_false_2).
      simpl in Hform.
      destruct (form_list self !! s) as [cls|]; [|discriminate].
      destruct (Page_objects_filter_first _) as [page|]; [|discriminate].
      destruct (get_form_initial_shape (Some s)
                  (set_page_pk (submitted_page_pk s data) self))
        as (initial & idict & Hini).
      rewrite Hini in Hform. injection Hform as <- _. eauto. }
  destruct Hkw as (page & -> & Hpage).
  unfold wizard_kwargs. split_and!.
  - rewrite lookup_insert_ne by done. apply lookup_insert_eq.
  - rewrite !lookup_insert_ne by done. apply lookup_insert_eq.
  - exists page. split; [apply lookup_insert_eq | done].
Qed.


(** C8. When the request carries the hint page=X, the initial data computed
    for step '0' is the engine's initial data for that step with 'page'
    bound to X; for any other named step the engine's initial data is
    returned as it is and the view is unchanged. *)
Theorem initial_data_carries_page_hint self X :
  GET (request self) !! "page" = Some X →
  (∃ initial self',
     get_form_initial (Some "0") self = (Ok initial, self') ∧
     initial = <["page" := X]> (SessionWizardView_get_form_initial self (Some "0")) ∧
     initial !! "page" = Some X) ∧
  (∀ s, s ≠ "" → s ≠ "0" →
     get_form_initial (Some s) self
     = (Ok (SessionWizardView_get_form_initial self (Some s)), self)).
Proof.
  intros HX. split.
  - unfold get_form_initial. rewrite is_first_step_named by done.
    rewrite bool_decide_eq_true_2 by done.
    unfold dict_get. rewrite HX. simpl.
    case_bool_decide; eexists _, _; (split; [reflexivity|]);
      (split; [reflexivity | apply lookup_insert_eq]).
  - intros s Hs H0. unfold get_form_initial.
    rewrite is_first_step_named by done.
    rewrite bool_decide_eq_false_2 by done. reflexivity.
Qed.

(** C9. On any step-one cleaned-data mapping, [get_origin_page] returns the
    value of 'page' when the mapping has one and [None] when it has none,
    without raising; [get_selected_entry] on a mapping without 'entry'
    raises [KeyError]. *)
Theorem origin_page_tolerates_missing_field self (d : dict) :
  (get_cleaned_data_for_step "0" self).1 = Ok (Some d) →
  (get_origin_page self).1
    = Ok (match d !! "page" with Some page => page | None => VNone end) ∧
  (d !! "entry" = None → (get_selected_entry self).1 = Raise KeyError).
Proof.
  rewrite first_step_cleaned. intros Hd.
  rewrite get_origin_page_run, get_selected_entry_run. simpl. rewrite Hd. simpl.
  split.
  - reflexivity.
  - intros ->. reflexivity.
Qed.

(** C10. While the current step is '1', [get_context_data] returns the
    engine's context with 'wizard_entry' bound to the entry selected from
    step one's cleaned data and every other key as the engine left it, and
    raises what the selection raises when there is no such entry. For
    every other current step, step one included, and without a current
    step it returns the engine's context unchanged and does nothing
    else. *)
Theorem context_data_adds_wizard_entry self (kwargs : gmap string ctxval) :
  let base := super_get_context_data self kwargs in
  (steps_current self = Some "1" →
   ∀ entry, (get_selected_entry self).1 = Ok entry →
     ∃ context,
       (get_context_data kwargs self).1 = Ok context ∧
       context !! "wizard_entry" = Some (CtxEntry entry) ∧
       ∀ k, k ≠ "wizard_entry" → context !! k = base !! k) ∧
  (steps_current self = Some "1" →
   ∀ e, (get_selected_entry self).1 = Raise e →
     (get_context_data kwargs self).1 = Raise e) ∧
  (steps_current self ≠ Some "1" →
   get_context_data kwargs self = (Ok base, self)).
Proof.
  intros base. split_and!.
  - intros Hcur entry Hsel.
    unfold get_context_data, Self.get_context_data. run_M.
    rewrite is_second_step_current, (bool_decide_eq_true_2 _ Hcur).
    fold get_selected_entry.
    destruct (get_selected_entry self) as [[entry'|e] self']; simpl in *; [|discriminate].
    injection Hsel as ->. eexists. split; [reflexivity|]. split.
    + apply lookup_insert_eq.
    + intros k Hk. by rewrite lookup_insert_ne.
  - intros Hcur e Hsel.
    unfold get_context_data, Self.get_context_data. run_M.
    rewrite is_second_step_current, (bool_decide_eq_true_2 _ Hcur).
    fold get_selected_entry.
    destruct (get_selected_entry self) as [[entry'|e'] self']; simpl in *; [discriminate|].
    by injection Hsel as ->.
  - intros Hcur.
    unfold get_context_data, Self.get_context_data. run_M.
    by rewrite is_second_step_current, (bool_decide_eq_false_2 _ Hcur).
Qed.

(** ** Further properties of the view *)

(** Every call of [get_form] leaves the language code, the request and
    the storage of the view alone. *)
Lemma get_form_frame self step data files :
  language_code (get_form step data files self).2 = language_code self ∧
  request (get_form step data files self).2 = request self ∧
  storage (get_form step data files self).2 = storage self.
Proof.
  destruct (target_step self step) as [s|] eqn:Hstep.
  - rewrite (get_form_target_step _ _ _ _ _ Hstep).
    destruct (is_second_step self (Some s)) eqn:Hsec.
    + rewrite get_form_second_step_run by done. cbv zeta.
      destruct (entry_of_cleaned _) as [entry|e].
      * destruct (page_of_cleaned _) as [page|e]; simpl;
          rewrite revalidate_language_code, revalidate_request, revalidate_storage;
          simpl;
          by rewrite revalidate_language_code, revalidate_request, revalidate_storage.
      * simpl.
        by rewrite revalidate_language_code, revalidate_request, revalidate_storage.
    + rewrite get_form_not_second, engine_get_form_not_second by done. simpl.
      destruct (form_list self !! s) as [cls|]; [|done].
      destruct (Page_objects_filter_first _) as [page|e]; [|done].
      destruct (get_form_initial_shape (Some s)
                  (set_page_pk (submitted_page_pk s data) self))
        as (initial & idict & ->).
      done.
  - destruct step as [s|]; [discriminate|]. simpl in Hstep.
    unfold get_form, Self.get_form. run_M. by rewrite Hstep.
Qed.

(** X1. Whatever [get_form] does, it leaves the language code, the
    request, the current step and the storage of the view alone. *)
Theorem get_form_keeps_request_state self step data files :
  let self' := (get_form step data files self).2 in
  language_code self' = language_code self ∧
  request self' = request self ∧
  steps_current self' = steps_current self ∧
  storage self' = storage self.
Proof.
  intros self'. subst self'.
  destruct (get_form_frame self step data files) as (Hlang & Hreq & Hsto).
  split_and!; [done|done| |done]. by apply steps_current_storage.
Qed.

(** X2. After [get_form] for a step other than '1', whether it returned or
    raised, [page_pk] holds the key submitted with this very call ([None]
    when nothing was submitted), so no key of an earlier call survives, and
    the registered form classes are untouched. *)
Theorem get_form_other_step_records_page_key self step s data files :
  target_step self step = Some s →
  s ≠ "" → s ≠ "1" →
  let self' := (get_form step data files self).2 in
  page_pk self' = Some (submitted_page_pk s data) ∧
  form_list self' = form_list self.
Proof.
  intros Hstep Hs H1 self'. subst self'.
  rewrite (get_form_target_step _ _ _ _ _ Hstep), get_form_other_step by done.
  rewrite engine_get_form_not_second
    by (rewrite is_second_step_named by done; by apply bool_decide_eq_false_2).
  simpl. destruct (form_list self !! s) as [cls|]; [|done].
  destruct (Page_objects_filter_first _) as [page|e]; [|done].
  destruct (get_form_initial_shape (Some s)
              (set_page_pk (submitted_page_pk s data) self))
    as (initial & idict & ->).
  done.
Qed.

(** X3. [get_form] rewrites at most the [form_list] slot of the step it
    resolves: the class registered for any other step is the same after the
    call as before, whether the call returned or raised. *)
Theorem get_form_only_rewrites_resolved_slot self step s data files k :
  target_step self step = Some s →
  k ≠ s →
  form_list (get_form step data files self).2 !! k = form_list self !! k.
Proof.
  intros Hstep Hk. rewrite (get_form_target_step _ _ _ _ _ Hstep).
  destruct (is_second_step self (Some s)) eqn:Hsec.
  - rewrite get_form_second_step_run by done. cbv zeta.
    destruct (entry_of_cleaned _) as [entry|e].
    + destruct (page_of_cleaned _) as [page|e]; simpl;
        rewrite revalidate_form_list; simpl; by rewrite lookup_insert_ne.
    + simpl. by rewrite revalidate_form_list.
  - rewrite get_form_not_second, engine_get_form_not_second by done. simpl.
    destruct (form_list self !! s) as [cls|]; [|done].
    destruct (Page_objects_filter_first _) as [page|e]; [|done].
    destruct (get_form_initial_shape (Some s)
                (set_page_pk (submitted_page_pk s data) self))
      as (initial & idict & ->).
    done.
Qed.

(** X4. For a registered step other than '1', [get_form] raises exactly
    when the page manager raises on the selected key, and then with the
    same exception; otherwise it instantiates the registered class with the
    submitted data and files passed through, the step as prefix and the
    three wizard keyword arguments. In particular an unset [page_pk] never
    makes it fail. *)
Theorem get_form_other_step_outcome self s data files cls :
  s ≠ "" → s ≠ "1" →
  form_list self !! s = Some cls →
  match Page_objects_filter_first
          (or_val (submitted_page_pk s data) (dict_get (GET (request self)) "page")) with
  | Ok page =>
      ∃ form self',
        get_form (Some s) data files self = (Ok form, self') ∧
        form_cls form = cls ∧ form_data form = data ∧ form_files form = files ∧
        form_prefix form = s ∧ form_kwargs form = wizard_kwargs self page
  | Raise e => (get_form (Some s) data files self).1 = Raise e
  end.
Proof.
  intros Hs H1 Hcls.
  destruct (Page_objects_filter_first _) as [page|e] eqn:Hpage.
  - by apply get_form_other_step_Ok.
  - rewrite get_form_other_step by done.
    rewrite engine_get_form_not_second
      by (rewrite is_second_step_named by done; by apply bool_decide_eq_false_2).
    simpl. by rewrite Hcls, Hpage.
Qed.

(** X5. The form resolved for step '1' does not depend on the class found
    in the '1' slot of [form_list] beforehand: a class left there by an
    earlier resolution never shows in the result. *)
Theorem get_form_ignores_installed_step_two_class self data files cls0 :
  (get_form (Some "1") data files
     (set_form_list (<["1" := cls0]> (form_list self)) self)).1
  = (get_form (Some "1") data files self).1.
Proof.
  set (self0 := set_form_list (<["1" := cls0]> (form_list self)) self).
  assert (Hsec : ∀ v : View, is_second_step v (Some "1") = true)
    by (intros v; rewrite is_second_step_named by done; by apply bool_decide_eq_true_2).
  rewrite !get_form_second_step_run by done. cbv zeta.
  assert (Hreads : first_step_reads self0 = first_step_reads self).
  { unfold first_step_reads, self0. simpl. by rewrite lookup_insert_ne. }
  rewrite (revalidate_reads _ _ Hreads).
  destruct (entry_of_cleaned _) as [entry|e]; [|reflexivity].
  destruct (page_of_cleaned _) as [page|e]; reflexivity.
Qed.

(** X7. Called without a step before the engine has set [steps],
    [get_form] raises [AttributeError] and assigns nothing, although
    [get_current_step] and the two step tests tolerate the same state. *)
Theorem get_form_without_steps_raises self data files :
  steps_current self = None →
  get_form None data files self = (Raise AttributeError, self) ∧
  get_current_step self = None ∧
  is_first_step self None = false ∧ is_second_step self None = false.
Proof.
  intros Hcur. split.
  - unfold get_form, Self.get_form. run_M. by rewrite Hcur.
  - unfold is_first_step, is_second_step, get_current_step. rewrite Hcur. done.
Qed.

(** X8. No step is both the first and the second: whatever the argument and
    the current step, [is_first_step] and [is_second_step] never both
    answer true. *)
Theorem first_and_second_step_exclusive self step :
  is_first_step self step && is_second_step self step = false.
Proof.
  unfold is_first_step, is_second_step.
  destruct (or_step step (get_current_step self)) as [s|]; [|done].
  apply andb_false_iff.
  destruct (decide (s = "0")) as [->|H0].
  - right. by apply bool_decide_eq_false_2.
  - left. apply bool_decide_eq_false_2. congruence.
Qed.

(** X9. Without submitted data (none at all, or an empty mapping), the
    container of a step other than '1' is the one the page manager returns
    for the request's 'page' parameter. *)
Theorem hint_selects_container_without_submission self s data files cls page :
  s ≠ "" → s ≠ "1" →
  form_list self !! s = Some cls →
  data_truthy data = false →
  Page_objects_filter_first (dict_get (GET (request self)) "page") = Ok page →
  ∃ form self',
    get_form (Some s) data files self = (Ok form, self') ∧
    form_kwargs form !! "wizard_page" = Some page.
Proof.
  intros Hs H1 Hcls Hdata Hpage.
  destruct (get_form_other_step_Ok self s data files cls page Hs H1 Hcls)
    as (form & self' & Hform & _ & _ & _ & _ & Hkw).
  { unfold submitted_page_pk. rewrite Hdata. exact Hpage. }
  exists form, self'. split; [done|]. rewrite Hkw. apply lookup_insert_eq.
Qed.

(** X10. A non-empty submitted '<step>-page' key decides the container of a
    step other than '1' on its own: the request's 'page' parameter is not
    looked at. *)
Theorem submitted_key_overrides_hint self s data files cls page :
  s ≠ "" → s ≠ "1" →
  form_list self !! s = Some cls →
  truthy (submitted_page_pk s data) = true →
  Page_objects_filter_first (submitted_page_pk s data) = Ok page →
  ∃ form self',
    get_form (Some s) data files self = (Ok form, self') ∧
    form_kwargs form !! "wizard_page" = Some page.
Proof.
  intros Hs H1 Hcls Htrue Hpage.
  destruct (get_form_other_step_Ok self s data files cls page Hs H1 Hcls)
    as (form & self' & Hform & _ & _ & _ & _ & Hkw).
  { unfold or_val. rewrite Htrue. exact Hpage. }
  exists form, self'. split; [done|]. rewrite Hkw. apply lookup_insert_eq.
Qed.

(** X11. When the request has no 'page' parameter, the initial data of step
    '0' still gets a 'page' entry, bound to [None]: a 'page' value
    configured in [initial_dict] for that step is overwritten. *)
Theorem initial_page_overwritten_without_hint self :
  GET (request self) !! "page" = None →
  ∃ initial self',
    get_form_initial (Some "0") self = (Ok initial, self') ∧
    initial !! "page" = Some VNone.
Proof.
  intros Hget. unfold get_form_initial.
  rewrite is_first_step_named by done. rewrite bool_decide_eq_true_2 by done.
  unfold dict_get. rewrite Hget. simpl.
  case_bool_decide; eexists _, _; (split; [reflexivity | apply lookup_insert_eq]).
Qed.

(** X12. When [initial_dict] holds a mapping for step '0', the 'page' entry
    that [get_form_initial] adds is written into that very mapping: after
    the call [initial_dict] holds the returned data under '0', the
    mappings of the other steps are untouched, and every key other than
    'page' keeps its configured value. *)
Theorem get_form_initial_writes_through self (d : dict) :
  initial_dict self !! "0" = Some d →
  let initial := <["page" := dict_get (GET (request self)) "page"]> d in
  let self' := (get_form_initial (Some "0") self).2 in
  (get_form_initial (Some "0") self).1 = Ok initial ∧
  initial_dict self' !! "0" = Some initial ∧
  (∀ s, s ≠ "0" → initial_dict self' !! s = initial_dict self !! s) ∧
  (∀ k, k ≠ "page" → initial !! k = d !! k).
Proof.
  intros Hd initial self'. subst self'. unfold get_form_initial.
  rewrite is_first_step_named by done. rewrite bool_decide_eq_true_2 by done.
  unfold SessionWizardView_get_form_initial. rewrite Hd.
  case_bool_decide as Hsome; [|exfalso; apply Hsome; eauto].
  simpl. split_and!.
  - reflexivity.
  - apply lookup_insert_eq.
  - intros s Hs. by rewrite lookup_insert_ne.
  - intros k Hk. unfold initial. by rewrite lookup_insert_ne.
Qed.

(** X13. [get_form_initial] can be repeated: a second call on the view the
    first call left behind returns the same initial data and leaves that
    view as it is. *)
Theorem get_form_initial_repeatable step self :
  let r := get_form_initial step self in
  get_form_initial step r.2 = r.
Proof. intros r. apply get_form_initial_again. Qed.

(** X14. The keyword arguments of the second step cannot be built while
    [get_cleaned_data_for_step('0')] answers [None]: [get_form_kwargs]
    raises [AttributeError]. *)
Theorem step_two_kwargs_need_step_one self step :
  is_second_step self step = true →
  (get_cleaned_data_for_step "0" self).1 = Ok None →
  (get_form_kwargs step self).1 = Raise AttributeError.
Proof.
  intros Hsec. rewrite first_step_cleaned. intros Hnone.
  unfold get_form_kwargs. rewrite self_get_form_kwargs_second by done.
  fold get_origin_page. rewrite get_origin_page_run, Hnone. reflexivity.
Qed.

(** X15. [done] on fewer than two forms raises [IndexError] before anything
    is saved. *)
Theorem done_needs_two_forms self (forms : list BoundForm) (db : DB) :
  (length forms < 2)%nat →
  done self forms db = (Raise IndexError, db).
Proof.
  intros Hlen. unfold done.
  rewrite (lookup_ge_None_2 forms 1) by lia. reflexivity.
Qed.

(** X16. [done] saves before it asks for the selected entry: when the
    selection fails after a successful save, [done] raises and what the
    save wrote is still there. *)
Theorem done_saves_before_entry_lookup
    self (forms : list BoundForm) form_two (db db' : DB) instance e :
  forms !! 1%nat = Some form_two →
  form_save form_two db = (Ok instance, db') →
  (get_selected_entry self).1 = Raise e →
  done self forms db = (Raise e, db').
Proof.
  intros Hform Hsave Hsel. unfold done. rewrite Hform. run_M.
  rewrite Hsave, get_success_url_run, Hsel. reflexivity.
Qed.

(** X17. A finalizing request that goes through commits what the save
    wrote, and its success URL is computed with the language detected from
    this very request, whatever language code the view held before. *)
Theorem dispatch_commits_and_uses_request_language
    self req (forms : list BoundForm) form_two (db db' : DB) instance entry :
  let self' := set_language_code (VStr (get_language_from_request req)) self in
  super_dispatch self' req done = done self' forms →
  forms !! 1%nat = Some form_two →
  form_save form_two db = (Ok instance, db') →
  (get_selected_entry self').1 = Ok entry →
  dispatch self req db =
    (Ok {| response_template := "cms/wizards/done.html";
           response_context :=
             {["url" := CtxVal (VStr (Wizard.get_success_url entry instance
                                        (VStr (get_language_from_request req))))]} |},
     db').
Proof.
  intros self' Hengine Hform Hsave Hsel.
  unfold dispatch, atomic. fold self'. rewrite Hengine.
  unfold done. rewrite Hform. run_M. rewrite Hsave.
  rewrite get_success_url_run, Hsel. reflexivity.
Qed.

(** X18. When a finalizing request saves its object and then fails to find
    the selected entry, [dispatch] raises and the saved object is rolled
    back with the rest: the persistent state is the one before. *)
Theorem dispatch_rolls_back_saved_object
    self req (forms : list BoundForm) form_two (db db' : DB) instance e :
  let self' := set_language_code (VStr (get_language_from_request req)) self in
  super_dispatch self' req done = done self' forms →
  forms !! 1%nat = Some form_two →
  form_save form_two db = (Ok instance, db') →
  (get_selected_entry self').1 = Raise e →
  dispatch self req db = (Raise e, db).
Proof.
  intros self' Hengine Hform Hsave Hsel.
  unfold dispatch, atomic. fold self'. rewrite Hengine.
  unfold done. rewrite Hform. run_M. rewrite Hsave.
  rewrite get_success_url_run, Hsel. reflexivity.
Qed.

(** X19. At step '1' the template, the context and the form all follow the
    same selection: with an entry selected, the template is that entry's,
    'wizard_entry' is that entry and the form class is built from that
    entry's form; with none, all three raise the same exception. *)
Theorem step_two_template_context_form_agree self data files kwargs :
  steps_current self = Some "1" →
  match (get_selected_entry self).1 with
  | Ok entry =>
      (get_template_names self).1 = Ok (Wizard.template_name entry) ∧
      (get_context_data kwargs self).1
        = Ok (<["wizard_entry" := CtxEntry entry]> (super_get_context_data self kwargs)) ∧
      ∃ form self',
        get_form None data files self = (Ok form, self') ∧
        form_cls form = step2_form_factory WizardStep2BaseForm (Wizard.form entry)
  | Raise e =>
      (get_template_names self).1 = Raise e ∧
      (get_context_data kwargs self).1 = Raise e ∧
      (get_form None data files self).1 = Raise e
  end.
Proof.
  intros Hcur.
  assert (Htpl : (get_template_names self).1 =
                 match (get_selected_entry self).1 with
                 | Ok entry => Ok (Wizard.template_name entry)
                 | Raise e => Raise e
                 end).
  { unfold get_template_names, Self.get_template_names. run_M.
    rewrite is_first_step_current, Hcur. simpl. fold get_selected_entry.
    by destruct (get_selected_entry self) as [[entry|e] self']. }
  assert (Hctx : (get_context_data kwargs self).1 =
                 match (get_selected_entry self).1 with
                 | Ok entry =>
                     Ok (<["wizard_entry" := CtxEntry entry]>
                           (super_get_context_data self kwargs))
                 | Raise e => Raise e
                 end).
  { unfold get_context_data, Self.get_context_data. run_M.
    rewrite is_second_step_current, (bool_decide_eq_true_2 _ Hcur).
    fold get_selected_entry.
    by destruct (get_selected_entry self) as [[entry|e] self']. }
  rewrite Htpl, Hctx.
  rewrite (get_form_target_step self None "1" data files Hcur).
  rewrite get_form_second_step_run
    by (rewrite is_second_step_named by done; by apply bool_decide_eq_true_2).
  rewrite get_selected_entry_run. simpl. cbv zeta.
  destruct (entry_of_cleaned (revalidate_first_step self).1) as [entry|e] eqn:Hsel;
    [|done].
  split; [reflexivity|]. split; [reflexivity|].
  destruct (entry_of_cleaned_Ok _ _ Hsel) as (d & entry_id & -> & _ & _). simpl.
  by eexists _, _.
Qed.

(** *** Repeating a call *)

Lemma view_eq (a b : View) :
  language_code a = language_code b → page_pk a = page_pk b →
  form_list a = form_list b → initial_dict a = initial_dict b →
  request a = request b → storage a = storage b → a = b.
Proof. destruct a, b. simpl. by intros -> -> -> -> -> ->. Qed.

Lemma write_through_frame (v : View) :
  language_code (write_through_first_step v) = language_code v ∧
  page_pk (write_through_first_step v) = page_pk v ∧
  form_list (write_through_first_step v) = form_list v ∧
  request (write_through_first_step v) = request v ∧
  storage (write_through_first_step v) = storage v.
Proof. unfold write_through_first_step. by case_bool_decide. Qed.

Lemma write_through_initial_dict_ext (a b : View) :
  request a = request b → initial_dict a = initial_dict b →
  initial_dict (write_through_first_step a) = initial_dict (write_through_first_step b).
Proof.
  intros Hreq Hini. unfold write_through_first_step, first_step_initial.
  rewrite Hreq, Hini. by case_bool_decide.
Qed.

Lemma write_through_initial_dict_idem (v : View) :
  initial_dict (write_through_first_step (write_through_first_step v))
  = initial_dict (write_through_first_step v).
Proof.
  unfold write_through_first_step at 2 3.
  case_bool_decide as Hsome; [|unfold write_through_first_step; by case_bool_decide].
  unfold write_through_first_step, first_step_initial. simpl.
  rewrite lookup_insert_eq. rewrite bool_decide_eq_true_2 by eauto.
  simpl. by rewrite !insert_insert_eq.
Qed.

Lemma write_through_initial_dict_other (v : View) s :
  s ≠ "0" → initial_dict (write_through_first_step v) !! s = initial_dict v !! s.
Proof.
  intros Hs. unfold write_through_first_step. case_bool_decide; [|done].
  simpl. by rewrite lookup_insert_ne.
Qed.

(** When validating step '0' again delivers a mapping, it has assigned
    the stored page key and written the initial data through. *)
Lemma revalidate_Ok_state (v : View) (d : dict) :
  (revalidate_first_step v).1 = Ok (Some d) →
  ∃ st, storage v = Some st ∧
    page_pk (revalidate_first_step v).2
    = Some (submitted_page_pk "0" (step_data st !! "0")) ∧
    initial_dict (revalidate_first_step v).2
    = initial_dict (write_through_first_step v).
Proof.
  unfold revalidate_first_step.
  destruct (form_list v !! "0") as [cls|]; [|discriminate].
  destruct (storage v) as [st|]; [|discriminate]. cbv zeta.
  destruct (Page_objects_filter_first _) as [page|e]; [|discriminate].
  simpl. intros _. exists st. split; [done|]. split.
  - by destruct (write_through_frame
                   (set_page_pk (submitted_page_pk "0" (step_data st !! "0")) v))
      as (_ & -> & _).
  - by apply write_through_initial_dict_ext.
Qed.

(** The view a successful resolution of the second step leaves behind. *)
Lemma get_form_second_step_state self s data files form self' :
  is_second_step self (Some s) = true →
  get_form (Some s) data files self = (Ok form, self') →
  ∃ st entry page,
    storage self = Some st ∧
    entry_of_cleaned (revalidate_first_step self).1 = Ok entry ∧
    page_of_cleaned (revalidate_first_step self).1 = Ok page ∧
    form = {| form_cls := step2_form_factory WizardStep2BaseForm (Wizard.form entry);
              form_data := data; form_files := files; form_prefix := s;
              form_initial := SessionWizardView_get_form_initial self (Some s);
              form_kwargs := wizard_kwargs self page |} ∧
    language_code self' = language_code self ∧
    request self' = request self ∧
    storage self' = storage self ∧
    form_list self'
      = <[s := step2_form_factory WizardStep2BaseForm (Wizard.form entry)]> (form_list self) ∧
    page_pk self' = Some (submitted_page_pk "0" (step_data st !! "0")) ∧
    initial_dict self' = initial_dict (write_through_first_step self).
Proof.
  intros Hsec Hform. pose proof (second_step_not_first _ _ Hsec) as Hs0.
  pose proof (get_form_frame self (Some s) data files) as (Hlang & Hreq & Hsto).
  rewrite Hform in Hlang, Hreq, Hsto. simpl in Hlang, Hreq, Hsto.
  rewrite get_form_second_step_run in Hform by done. cbv zeta in Hform.
  destruct (entry_of_cleaned (revalidate_first_step self).1) as [entry|] eqn:Hentry;
    [|discriminate].
  destruct (page_of_cleaned (revalidate_first_step self).1) as [page|] eqn:Hpage;
    [|discriminate].
  destruct (entry_of_cleaned_Ok _ _ Hentry) as (d & entry_id & Hd & _ & _).
  set (self1 := set_page_pk (submitted_page_pk s data) self) in *.
  set (selfA := (revalidate_first_step self1).2) in *.
  set (cls := step2_form_factory WizardStep2BaseForm (Wizard.form entry)) in *.
  set (selfB := set_form_list (<[s := cls]> (form_list self)) selfA) in *.
  assert (HdA : (revalidate_first_step self1).1 = Ok (Some d))
    by (rewrite <- Hd; by apply revalidate_reads).
  assert (HreadsB : first_step_reads selfB = first_step_reads self).
  { transitivity (first_step_reads selfA); [|exact (revalidate_keeps self1)].
    unfold first_step_reads, selfB, selfA. simpl.
    by rewrite lookup_insert_ne, revalidate_form_list. }
  assert (HdB : (revalidate_first_step selfB).1 = Ok (Some d))
    by (rewrite <- Hd; by apply revalidate_reads).
  destruct (revalidate_Ok_state _ _ HdA) as (st & Hst & _ & HiniA).
  change (storage self = Some st) in Hst.
  destruct (revalidate_Ok_state _ _ HdB) as (st' & Hst' & HpkB & HiniB).
  assert (st' = st) as ->.
  { unfold selfB, selfA in Hst'. simpl in Hst'. rewrite revalidate_storage in Hst'.
    change (storage self = Some st') in Hst'. congruence. }
  injection Hform as <- <-.
  exists st, entry, page. split_and!; try done.
  - rewrite revalidate_form_list. done.
  - rewrite HiniB.
    transitivity (initial_dict (write_through_first_step (write_through_first_step self)));
      [|apply write_through_initial_dict_idem].
    apply write_through_initial_dict_ext.
    + destruct (write_through_frame self) as (_ & _ & _ & -> & _).
      unfold selfB, selfA. simpl. by rewrite revalidate_request.
    + unfold selfB. simpl. fold selfA. unfold selfA. rewrite HiniA.
      by apply write_through_initial_dict_ext.
Qed.

Lemma engine_get_form_again self s data files form self' :
  is_second_step self (Some s) = false →
  SessionWizardView_get_form s data files self = (Ok form, self') →
  SessionWizardView_get_form s data files self' = (Ok form, self').
Proof.
  intros Hsec. rewrite engine_get_form_not_second by done.
  destruct (form_list self !! s) as [cls|] eqn:Hcls; [|discriminate].
  destruct (page_pk self) as [pk|] eqn:Hpk; [|discriminate].
  destruct (Page_objects_filter_first _) as [page|] eqn:Hpage; [|discriminate].
  pose proof (get_form_initial_again (Some s) self) as Hagain.
  destruct (get_form_initial_shape (Some s) self) as (initial & idict & Hini).
  rewrite Hini in Hagain |- *. simpl in Hagain. intros [= <- <-].
  rewrite engine_get_form_not_second by done. simpl.
  by rewrite Hcls, Hpk, Hpage, Hagain.
Qed.

(** X6. [get_form] can be repeated: when a call returned a form, the same
    call on the view it left behind returns the same form and leaves that
    view as it is. *)
Theorem get_form_repeatable self step s data files form self' :
  target_step self step = Some s →
  get_form step data files self = (Ok form, self') →
  get_form step data files self' = (Ok form, self').
Proof.
  intros Hstep Hform.
  pose proof (get_form_frame self step data files) as (Hlang & Hreq & Hsto).
  rewrite Hform in Hlang, Hreq, Hsto. simpl in Hlang, Hreq, Hsto.
  assert (Hstep' : target_step self' step = Some s).
  { destruct step as [s0|]; [done|]. simpl in *.
    by rewrite (steps_current_storage _ _ Hsto). }
  rewrite (get_form_target_step _ _ _ _ _ Hstep) in Hform.
  rewrite (get_form_target_step _ _ _ _ _ Hstep').
  destruct (is_second_step self (Some s)) eqn:Hsec.
  - assert (Hsec' : is_second_step self' (Some s) = true)
      by (by rewrite (is_second_step_storage _ _ _ Hsto)).
    pose proof (second_step_not_first _ _ Hsec) as Hs0.
    destruct (get_form_second_step_state _ _ _ _ _ _ Hsec Hform)
      as (st & entry & page & Hst & Hentry & Hpage & -> & _ & _ & _ & Hfl & Hpk & Hini).
    assert (Hreads : first_step_reads self' = first_step_reads self).
    { unfold first_step_reads, first_step_initial.
      rewrite Hlang, Hreq, Hsto, Hfl, Hini. rewrite lookup_insert_ne by done.
      pose proof (first_step_reads_written self) as Hw.
      unfold first_step_reads, first_step_initial in Hw.
      injection Hw as _ _ _ _ Hw.
      destruct (write_through_frame self) as (_ & _ & _ & Hreqw & _).
      rewrite Hreqw in Hw. by rewrite Hw. }
    rewrite get_form_second_step_run by done. cbv zeta.
    rewrite (revalidate_reads _ _ Hreads), Hentry, Hpage.
    set (cls := step2_form_factory WizardStep2BaseForm (Wizard.form entry)) in *.
    assert (Hform' :
      get_form (Some s) data files self'
      = (Ok {| form_cls := cls; form_data := data; form_files := files; form_prefix := s;
               form_initial := SessionWizardView_get_form_initial self' (Some s);
               form_kwargs := wizard_kwargs self' page |},
         (revalidate_first_step
            (set_form_list (<[s := cls]> (form_list self'))
               (revalidate_first_step
                  (set_page_pk (submitted_page_pk s data) self')).2)).2)).
    { rewrite get_form_second_step_run by done. cbv zeta.
      by rewrite (revalidate_reads _ _ Hreads), Hentry, Hpage. }
    destruct (get_form_second_step_state _ _ _ _ _ _ Hsec' Hform')
      as (st' & entry' & page' & Hst' & _ & _ & _ & Hlang' & Hreq' & Hsto' & Hfl' & Hpk' & Hini').
    assert (st' = st) as -> by congruence.
    f_equal.
    + unfold wizard_kwargs, SessionWizardView_get_form_initial.
      rewrite Hlang, Hreq, Hini.
      by rewrite write_through_initial_dict_other.
    + apply view_eq.
      * congruence.
      * congruence.
      * rewrite revalidate_form_list. simpl. rewrite Hfl. apply insert_insert_eq.
      * rewrite Hini', Hini.
        transitivity (initial_dict (write_through_first_step (write_through_first_step self)));
          [|apply write_through_initial_dict_idem].
        apply write_through_initial_dict_ext; [|done].
        destruct (write_through_frame self) as (_ & _ & _ & -> & _). done.
      * congruence.
      * congruence.
  - rewrite get_form_not_second in Hform by done.
    assert (Hsec1 : is_second_step (set_page_pk (submitted_page_pk s data) self) (Some s)
                    = false) by exact Hsec.
    pose proof (engine_get_form_again _ _ _ _ _ _ Hsec1 Hform) as Hagain.
    rewrite get_form_not_second
      by (by rewrite (is_second_step_storage _ _ _ Hsto)).
    rewrite engine_get_form_not_second in Hform by done. simpl in Hform.
    destruct (form_list self !! s) as [cls|]; [|discriminate].
    destruct (Page_objects_filter_first _) as [page|]; [|discriminate].
    destruct (get_form_initial_shape (Some s)
                (set_page_pk (submitted_page_pk s data) self))
      as (initial & idict & Hini).
    rewrite Hini in Hform. injection Hform as _ <-.
    exact Hagain.
Qed.

End Properties.

(** ** The properties on the concrete installations *)

(** C5, where the code departs from it. A 'page' parameter or a submitted
    '0-page' key that is not a number does not resolve to "no container":
    the page manager raises [ValueError] on it, the view lets that
    through, and constructing the form of step '0' fails. *)
Theorem malformed_page_key_raises :
  get_form (C := site) (Some "0") None None step_one_view_bad_hint
  = (Raise ValueError, set_page_pk VNone step_one_view_bad_hint) ∧
  get_form (C := site) (Some "0") post_page_malformed None step_one_view
  = (Raise ValueError, set_page_pk (VStr "zzz") step_one_view).
Proof. split; vm_compute; reflexivity. Qed.

(** A key that is a number but names no page does resolve to
    "no container". *)
Example unknown_page_key_gives_no_container :
  ∃ form self',
    get_form (C := site) (Some "0") post_page_unknown None step_one_view
    = (Ok form, self') ∧
    form_kwargs form !! "wizard_page" = Some VNone.
Proof. eexists _, _. split; vm_compute; reflexivity. Qed.

(** C2 as stated fails: with nothing stored for step one, resolving the
    form for step '1' does not yield the placeholder [Form]. *)
Lemma step_two_form_no_placeholder_fallback :
  (get_cleaned_data_for_step (C := site) "0" step_one_view).1 = Ok None ∧
  ¬ ∃ form self',
      get_form (C := site) (Some "1") None None step_one_view = (Ok form, self') ∧
      form_cls form = Form.
Proof.
  split; [vm_compute; reflexivity|].
  intros (form & self' & Hform & _).
  assert (Hrun : (get_form (C := site) (Some "1") None None step_one_view).1
                 = Raise TypeError) by (vm_compute; reflexivity).
  rewrite Hform in Hrun. discriminate Hrun.
Qed.

Lemma step_two_form_without_entry_raises_witness :
  (missing_entry_error (get_cleaned_data_for_step (C := site) "0" step_one_view).1
   = Some TypeError ∧
   (get_form (C := site) (Some "1") None None step_one_view).1 = Raise TypeError ∧
   form_list (get_form (C := site) (Some "1") None None step_one_view).2
   = form_list step_one_view) ∧
  (missing_entry_error
     (get_cleaned_data_for_step (C := fieldless_site) "0" step_two_view).1
   = Some KeyError ∧
   (get_form (C := fieldless_site) (Some "1") None None step_two_view).1
   = Raise KeyError ∧
   form_list (get_form (C := fieldless_site) (Some "1") None None step_two_view).2
   = form_list step_two_view) ∧
  (missing_entry_error
     (get_cleaned_data_for_step (C := site) "0" step_one_view_bad_hint).1
   = Some ValueError ∧
   (get_form (C := site) (Some "1") None None step_one_view_bad_hint).1
   = Raise ValueError ∧
   form_list (get_form (C := site) (Some "1") None None step_one_view_bad_hint).2
   = form_list step_one_view_bad_hint).
Proof.
  split; [|split].
  - split; [vm_compute; reflexivity|].
    apply (step_two_form_without_entry_raises (C := site) step_one_view None None TypeError).
    vm_compute; reflexivity.
  - split; [vm_compute; reflexivity|].
    apply (step_two_form_without_entry_raises (C := fieldless_site) step_two_view
             None None KeyError).
    vm_compute; reflexivity.
  - split; [vm_compute; reflexivity|].
    apply (step_two_form_without_entry_raises (C := site) step_one_view_bad_hint
             None None ValueError).
    vm_compute; reflexivity.
Defined.

Lemma step_two_form_class_from_selected_entry_witness :
  target_step step_two_view None = Some "1" ∧
  (∃ d entry_id,
     (get_cleaned_data_for_step (C := site) "0" step_two_view).1 = Ok (Some d) ∧
     d !! "entry" = Some (VStr entry_id) ∧
     wizard_pool_entries (Collaborators := site) !! entry_id = Some page_entry) ∧
  ∃ form self',
    get_form (C := site) None None None step_two_view = (Ok form, self') ∧
    form_cls form = step2_form_factory WizardStep2BaseForm (Wizard.form page_entry) ∧
    form_list self' !! "1" = Some (form_cls form) ∧
    static_form_list !! "1" ≠ Some (form_cls form).
Proof.
  split; [reflexivity|].
  exact (step_two_form_class_from_selected_entry (C := site) step_two_view None None None
           eq_refl).
Defined.

Lemma done_saves_and_returns_success_url_witness :
  [step_one_form; step_two_form] !! 1%nat = Some step_two_form ∧
  form_save (Collaborators := site) step_two_form [] = (Ok (VObj 0), [VObj 0]) ∧
  (get_selected_entry (C := site) step_two_view).1 = Ok page_entry ∧
  (get_success_url (C := site) (VObj 0) step_two_view).1 = Ok "/en/new-page/" ∧
  done (C := site) step_two_view [step_one_form; step_two_form] []
  = (Ok {| response_template := "cms/wizards/done.html";
           response_context := {["url" := CtxVal (VStr "/en/new-page/")]} |},
     [VObj 0]).
Proof.
  split; [reflexivity|]. split; [reflexivity|]. split; [vm_compute; reflexivity|].
  exact (done_saves_and_returns_success_url (C := site) step_two_view
           [step_one_form; step_two_form] step_two_form [] [VObj 0] (VObj 0) page_entry
           eq_refl eq_refl eq_refl).
Defined.

Lemma dispatch_rolls_back_failed_save_witness :
  super_dispatch (Collaborators := failing_site)
    (set_language_code (VStr "en") step_two_view) editor_no_hint (done (C := failing_site))
  = done (C := failing_site) (set_language_code (VStr "en") step_two_view)
      [step_one_form; step_two_form] ∧
  [step_one_form; step_two_form] !! 1%nat = Some step_two_form ∧
  form_save (Collaborators := failing_site) step_two_form [VObj 41]
  = (Raise DatabaseError, [VObj 0; VObj 41]) ∧
  dispatch (C := failing_site) step_two_view editor_no_hint
  = atomic (super_dispatch (Collaborators := failing_site)
              (set_language_code (VStr "en") step_two_view) editor_no_hint
              (done (C := failing_site))) ∧
  dispatch (C := failing_site) step_two_view editor_no_hint [VObj 41]
  = (Raise DatabaseError, [VObj 41]).
Proof.
  split; [reflexivity|]. split; [reflexivity|]. split; [reflexivity|].
  apply (dispatch_rolls_back_failed_save (C := failing_site) step_two_view editor_no_hint
           [step_one_form; step_two_form] step_two_form [VObj 41] [VObj 0; VObj 41]
           DatabaseError);
    reflexivity.
Defined.

Lemma constructed_form_kwargs_witness :
  target_step step_one_view None = Some "0" ∧
  "0" ≠ "" ∧
  get_form (C := site) None post_page_seven None step_one_view
  = (Ok step_one_bound_form, set_page_pk (VStr "7") step_one_view) ∧
  form_kwargs step_one_bound_form !! "wizard_user" = Some (VUser "editor") ∧
  form_kwargs step_one_bound_form !! "wizard_language" = Some (VStr "en") ∧
  ∃ page,
    form_kwargs step_one_bound_form !! "wizard_page" = Some page ∧
    Page_objects_filter_first (Collaborators := site)
      (or_val (submitted_page_pk "0" post_page_seven)
         (dict_get (GET (request step_one_view)) "page"))
    = Ok page.
Proof.
  split; [reflexivity|]. split; [discriminate|]. split; [vm_compute; reflexivity|].
  apply (constructed_form_kwargs (C := site) step_one_view None "0" post_page_seven None
           step_one_bound_form (set_page_pk (VStr "7") step_one_view));
    [reflexivity | discriminate | vm_compute; reflexivity].
Defined.


Lemma initial_data_carries_page_hint_witness :
  GET (request step_one_view) !! "page" = Some (VStr "7") ∧
  (∃ initial self',
     get_form_initial (Some "0") step_one_view = (Ok initial, self') ∧
     initial = <["page" := VStr "7"]>
                 (SessionWizardView_get_form_initial step_one_view (Some "0")) ∧
     initial !! "page" = Some (VStr "7")) ∧
  (∀ s, s ≠ "" → s ≠ "0" →
     get_form_initial (Some s) step_one_view
     = (Ok (SessionWizardView_get_form_initial step_one_view (Some s)), step_one_view)).
Proof.
  split; [reflexivity|].
  apply (initial_data_carries_page_hint step_one_view (VStr "7")). reflexivity.
Defined.

Lemma origin_page_tolerates_missing_field_witness :
  (get_cleaned_data_for_step (C := fieldless_site) "0" step_two_view).1 = Ok (Some ∅) ∧
  (get_origin_page (C := fieldless_site) step_two_view).1 = Ok VNone ∧
  (get_selected_entry (C := fieldless_site) step_two_view).1 = Raise KeyError.
Proof.
  assert (Hd : (get_cleaned_data_for_step (C := fieldless_site) "0" step_two_view).1
               = Ok (Some ∅)) by (vm_compute; reflexivity).
  split; [exact Hd|].
  destruct (origin_page_tolerates_missing_field (C := fieldless_site) step_two_view ∅ Hd)
    as [Hpage Hentry].
  split; [exact Hpage | exact (Hentry eq_refl)].
Defined.

Lemma context_data_adds_wizard_entry_witness :
  (steps_current step_two_view = Some "1" ∧
   (get_selected_entry (C := site) step_two_view).1 = Ok page_entry ∧
   ∃ context,
     (get_context_data (C := site) ∅ step_two_view).1 = Ok context ∧
     context !! "wizard_entry" = Some (CtxEntry page_entry) ∧
     ∀ k, k ≠ "wizard_entry" → context !! k = (∅ : gmap string ctxval) !! k) ∧
  (steps_current step_two_view = Some "1" ∧
   (get_selected_entry (C := fieldless_site) step_two_view).1 = Raise KeyError ∧
   (get_context_data (C := fieldless_site) ∅ step_two_view).1 = Raise KeyError) ∧
  (steps_current step_one_view ≠ Some "1" ∧
   get_context_data (C := site) ∅ step_one_view = (Ok ∅, step_one_view)).
Proof.
  destruct (context_data_adds_wizard_entry (C := site) step_two_view ∅) as (Hadd & _ & _).
  destruct (context_data_adds_wizard_entry (C := fieldless_site) step_two_view ∅)
    as (_ & Hraise & _).
  destruct (context_data_adds_wizard_entry (C := site) step_one_view ∅) as (_ & _ & Hkeep).
  assert (Hsel : (get_selected_entry (C := site) step_two_view).1 = Ok page_entry)
    by (vm_compute; reflexivity).
  assert (Hsel' : (get_selected_entry (C := fieldless_site) step_two_view).1
                  = Raise KeyError) by (vm_compute; reflexivity).
  split; [|split].
  - split; [reflexivity|]. split; [exact Hsel|]. exact (Hadd eq_refl page_entry Hsel).
  - split; [reflexivity|]. split; [exact Hsel'|]. exact (Hraise eq_refl KeyError Hsel').
  - split; [discriminate|]. apply Hkeep. discriminate.
Defined.

(** ** The further properties on the concrete installations *)

Lemma get_form_other_step_records_page_key_witness :
  target_step step_one_view None = Some "0" ∧ "0" ≠ "" ∧ "0" ≠ "1" ∧
  page_pk (get_form (C := site) None post_page_seven None step_one_view).2
  = Some (VStr "7") ∧
  form_list (get_form (C := site) None post_page_seven None step_one_view).2
  = form_list step_one_view.
Proof.
  split; [reflexivity|]. split; [discriminate|]. split; [discriminate|].
  exact (get_form_other_step_records_page_key (C := site) step_one_view None "0"
           post_page_seven None eq_refl ltac:(discriminate) ltac:(discriminate)).
Defined.

Lemma get_form_only_rewrites_resolved_slot_witness :
  target_step step_two_view None = Some "1" ∧ "0" ≠ "1" ∧
  form_list (get_form (C := site) None None None step_two_view).2 !! "0"
  = form_list step_two_view !! "0".
Proof.
  split; [reflexivity|]. split; [discriminate|].
  exact (get_form_only_rewrites_resolved_slot (C := site) step_two_view None "1"
           None None "0" eq_refl ltac:(discriminate)).
Defined.

Lemma get_form_other_step_outcome_witness :
  "0" ≠ "" ∧ "0" ≠ "1" ∧
  form_list step_one_view_bad_hint !! "0" = Some WizardStep1Form ∧
  (get_form (C := site) (Some "0") None None step_one_view_bad_hint).1
  = Raise ValueError.
Proof.
  split; [discriminate|]. split; [discriminate|]. split; [reflexivity|].
  exact (get_form_other_step_outcome (C := site) step_one_view_bad_hint "0"
           None None WizardStep1Form ltac:(discriminate) ltac:(discriminate) eq_refl).
Defined.

Lemma get_form_repeatable_witness :
  target_step step_two_view None = Some "1" ∧
  (∃ form,
     get_form (C := site) None None None step_two_view
     = (Ok form, (get_form (C := site) None None None step_two_view).2) ∧
     get_form (C := site) None None None
       (get_form (C := site) None None None step_two_view).2
     = (Ok form, (get_form (C := site) None None None step_two_view).2)).
Proof.
  split; [reflexivity|].
  assert (Hrun : ∃ form,
     get_form (C := site) None None None step_two_view
     = (Ok form, (get_form (C := site) None None None step_two_view).2)).
  { eexists. vm_compute. reflexivity. }
  destruct Hrun as (form & Hrun). exists form. split; [exact Hrun|].
  exact (get_form_repeatable (C := site) step_two_view None "1" None None form _
           eq_refl Hrun).
Defined.

Lemma get_form_without_steps_raises_witness :
  steps_current fresh_view = None ∧
  get_form (C := site) None post_page_seven None fresh_view
  = (Raise AttributeError, fresh_view) ∧
  get_current_step fresh_view = None ∧
  is_first_step fresh_view None = false ∧ is_second_step fresh_view None = false.
Proof.
  split; [reflexivity|].
  exact (get_form_without_steps_raises (C := site) fresh_view post_page_seven None eq_refl).
Defined.

Lemma hint_selects_container_without_submission_witness :
  "0" ≠ "" ∧ "0" ≠ "1" ∧
  form_list step_one_view !! "0" = Some WizardStep1Form ∧
  data_truthy None = false ∧
  Page_objects_filter_first (Collaborators := site)
    (dict_get (GET (request step_one_view)) "page") = Ok (VPage 7) ∧
  ∃ form self',
    get_form (C := site) (Some "0") None None step_one_view = (Ok form, self') ∧
    form_kwargs form !! "wizard_page" = Some (VPage 7).
Proof.
  split; [discriminate|]. split; [discriminate|]. split; [reflexivity|].
  split; [reflexivity|]. split; [vm_compute; reflexivity|].
  apply (hint_selects_container_without_submission (C := site) step_one_view "0"
           None None WizardStep1Form (VPage 7));
    [discriminate | discriminate | reflexivity | reflexivity | vm_compute; reflexivity].
Defined.

Lemma submitted_key_overrides_hint_witness :
  "0" ≠ "" ∧ "0" ≠ "1" ∧
  form_list step_one_view_bad_hint !! "0" = Some WizardStep1Form ∧
  truthy (submitted_page_pk "0" post_page_seven) = true ∧
  Page_objects_filter_first (Collaborators := site)
    (submitted_page_pk "0" post_page_seven) = Ok (VPage 7) ∧
  ∃ form self',
    get_form (C := site) (Some "0") post_page_seven None step_one_view_bad_hint
    = (Ok form, self') ∧
    form_kwargs form !! "wizard_page" = Some (VPage 7).
Proof.
  split; [discriminate|]. split; [discriminate|]. split; [reflexivity|].
  split; [vm_compute; reflexivity|]. split; [vm_compute; reflexivity|].
  apply (submitted_key_overrides_hint (C := site) step_one_view_bad_hint "0"
           post_page_seven None WizardStep1Form (VPage 7));
    [discriminate | discriminate | reflexivity | vm_compute; reflexivity
    | vm_compute; reflexivity].
Defined.

Lemma initial_page_overwritten_without_hint_witness :
  GET (request configured_view) !! "page" = None ∧
  configured_initial !! "page" = Some (VInt 5) ∧
  ∃ initial self',
    get_form_initial (Some "0") configured_view = (Ok initial, self') ∧
    initial !! "page" = Some VNone.
Proof.
  split; [reflexivity|]. split; [reflexivity|].
  exact (initial_page_overwritten_without_hint configured_view eq_refl).
Defined.

Lemma get_form_initial_writes_through_witness :
  initial_dict configured_view !! "0" = Some configured_initial ∧
  (get_form_initial (Some "0") configured_view).1
  = Ok (<["page" := VNone]> configured_initial) ∧
  initial_dict (get_form_initial (Some "0") configured_view).2 !! "0"
  = Some (<["page" := VNone]> configured_initial) ∧
  (∀ s, s ≠ "0" →
     initial_dict (get_form_initial (Some "0") configured_view).2 !! s
     = initial_dict configured_view !! s) ∧
  (∀ k, k ≠ "page" →
     (<["page" := VNone]> configured_initial : dict) !! k = configured_initial !! k).
Proof.
  split; [reflexivity|].
  exact (get_form_initial_writes_through configured_view configured_initial eq_refl).
Defined.

Lemma step_two_kwargs_need_step_one_witness :
  is_second_step step_one_view (Some "1") = true ∧
  (get_cleaned_data_for_step (C := site) "0" step_one_view).1 = Ok None ∧
  (get_form_kwargs (C := site) (Some "1") step_one_view).1 = Raise AttributeError.
Proof.
  split; [reflexivity|]. split; [vm_compute; reflexivity|].
  apply (step_two_kwargs_need_step_one (C := site) step_one_view (Some "1"));
    [reflexivity | vm_compute; reflexivity].
Defined.

Lemma done_needs_two_forms_witness :
  (length [step_one_form] < 2)%nat ∧
  done (C := site) step_two_view [step_one_form] [] = (Raise IndexError, []).
Proof.
  split; [simpl; lia|].
  apply (done_needs_two_forms (C := site) step_two_view [step_one_form] []).
  simpl; lia.
Defined.

Lemma done_saves_before_entry_lookup_witness :
  [step_one_form; step_two_form] !! 1%nat = Some step_two_form ∧
  form_save (Collaborators := site) step_two_form [] = (Ok (VObj 0), [VObj 0]) ∧
  (get_selected_entry (C := site) step_one_view).1 = Raise TypeError ∧
  done (C := site) step_one_view [step_one_form; step_two_form] []
  = (Raise TypeError, [VObj 0]).
Proof.
  split; [reflexivity|]. split; [reflexivity|]. split; [vm_compute; reflexivity|].
  apply (done_saves_before_entry_lookup (C := site) step_one_view
           [step_one_form; step_two_form] step_two_form [] [VObj 0] (VObj 0) TypeError);
    [reflexivity | reflexivity | vm_compute; reflexivity].
Defined.

Lemma dispatch_commits_and_uses_request_language_witness :
  super_dispatch (Collaborators := site)
    (set_language_code (VStr "en") (set_language_code (VStr "de") step_two_view))
    editor_no_hint (done (C := site))
  = done (C := site)
      (set_language_code (VStr "en") (set_language_code (VStr "de") step_two_view))
      [step_one_form; step_two_form] ∧
  [step_one_form; step_two_form] !! 1%nat = Some step_two_form ∧
  form_save (Collaborators := site) step_two_form [] = (Ok (VObj 0), [VObj 0]) ∧
  (get_selected_entry (C := site)
     (set_language_code (VStr "en") (set_language_code (VStr "de") step_two_view))).1
  = Ok page_entry ∧
  dispatch (C := site) (set_language_code (VStr "de") step_two_view) editor_no_hint []
  = (Ok {| response_template := "cms/wizards/done.html";
           response_context := {["url" := CtxVal (VStr "/en/new-page/")]} |},
     [VObj 0]).
Proof.
  split; [reflexivity|]. split; [reflexivity|]. split; [reflexivity|].
  split; [vm_compute; reflexivity|].
  apply (dispatch_commits_and_uses_request_language (C := site)
           (set_language_code (VStr "de") step_two_view) editor_no_hint
           [step_one_form; step_two_form] step_two_form [] [VObj 0] (VObj 0) page_entry);
    [reflexivity | reflexivity | reflexivity | vm_compute; reflexivity].
Defined.

Lemma dispatch_rolls_back_saved_object_witness :
  super_dispatch (Collaborators := site)
    (set_language_code (VStr "en") step_one_view) editor (done (C := site))
  = done (C := site) (set_language_code (VStr "en") step_one_view)
      [step_one_form; step_two_form] ∧
  [step_one_form; step_two_form] !! 1%nat = Some step_two_form ∧
  form_save (Collaborators := site) step_two_form [VObj 41]
  = (Ok (VObj 1), [VObj 1; VObj 41]) ∧
  (get_selected_entry (C := site) (set_language_code (VStr "en") step_one_view)).1
  = Raise TypeError ∧
  dispatch (C := site) step_one_view editor [VObj 41] = (Raise TypeError, [VObj 41]).
Proof.
  split; [reflexivity|]. split; [reflexivity|]. split; [reflexivity|].
  split; [vm_compute; reflexivity|].
  apply (dispatch_rolls_back_saved_object (C := site) step_one_view editor
           [step_one_form; step_two_form] step_two_form [VObj 41] [VObj 1; VObj 41]
           (VObj 1) TypeError);
    [reflexivity | reflexivity | reflexivity | vm_compute; reflexivity].
Defined.

Lemma step_two_template_context_form_agree_witness :
  steps_current step_two_view = Some "1" ∧
  (get_template_names (C := site) step_two_view).1 = Ok "cms/wizards/create.html" ∧
  (get_context_data (C := site) ∅ step_two_view).1
  = Ok (<["wizard_entry" := CtxEntry page_entry]> ∅) ∧
  ∃ form self',
    get_form (C := site) None None None step_two_view = (Ok form, self') ∧
    form_cls form = step2_form_factory WizardStep2BaseForm (Wizard.form page_entry).
Proof.
  split; [reflexivity|].
  assert (Hsel : (get_selected_entry (C := site) step_two_view).1 = Ok page_entry)
    by (vm_compute; reflexivity).
  pose proof (step_two_template_context_form_agree (C := site) step_two_view None None ∅
                eq_refl) as Hagree.
  rewrite Hsel in Hagree. exact Hagree.
Defined.

(** Resolving step '1' validates step '0' again on the way: afterwards
    [page_pk] is the key stored with step one, not the one submitted with
    step two. *)
Example step_two_page_pk_is_the_stored_key :
  page_pk (get_form (C := site) (Some "1") (Some {["1-page" := VStr "zzz"]}) None
             step_two_view).2
  = Some (VStr "7").
Proof. vm_compute. reflexivity. Qed.
